(** * Project intelligence and TDD protocol: a shallow embedding

    The development follows [scripts/core/project-intelligence.ts] (class
    [ProjectIntelligence]) and the TDD protocol module (class [TDDProtocol]).

    Modelling conventions.
    - A JavaScript string is a [string] of 8-bit characters.  The model is
      exact on ASCII text: character classes such as [[A-Z]] and the case
      maps [toUpperCase]/[toLowerCase] act on the ASCII letters and leave
      every other character alone.
    - A value that may be [undefined] is an [option].
    - [Record<string, string>] is a [gmap string string].
    - The shell ([execSync]) and the file system ([fs]) are explicit: a
      shell is a function from command lines to outcomes, a file system is
      a record of files and directories that is threaded through writes.
    - A call of [fs] that may throw returns the file system it leaves and
      how it ended; an exception ends the calls that follow it. *)

From Stdlib Require Import Ascii String List Bool Arith Lia.
From Stdlib Require Import Numbers.DecimalString.
From stdpp Require Import base option list gmap strings.

Import ListNotations.
Local Open Scope string_scope.
Local Open Scope list_scope.

(** ** JavaScript string primitives *)

Module Js.

(** The double quote and the line feed, by code. *)
Definition dquote : string := String (ascii_of_nat 34) EmptyString.
Definition LF : ascii := ascii_of_nat 10.
Definition hyphen : ascii := ascii_of_nat 45.

(** [between lo hi c]: the code of [c] lies in the closed range. *)
Definition between (lo hi : nat) (c : ascii) : bool :=
  ((lo <=? nat_of_ascii c)%nat && (nat_of_ascii c <=? hi)%nat)%bool.

(** [[A-Z]], [[a-z]], [[0-9]]. *)
Definition isUpper (c : ascii) : bool := between 65 90 c.
Definition isLower (c : ascii) : bool := between 97 122 c.
Definition isDigit (c : ascii) : bool := between 48 57 c.

(** [[a-zA-Z0-9]] and [[a-z0-9-]]. *)
Definition isAlnum (c : ascii) : bool := isLower c || isUpper c || isDigit c.
Definition isKebabChar (c : ascii) : bool :=
  isLower c || isDigit c || Ascii.eqb c hyphen.

(** White space removed by [String.prototype.trim] (ASCII part). *)
Definition isSpace (c : ascii) : bool :=
  between 9 13 c || Ascii.eqb c (ascii_of_nat 32).

Definition upperChar (c : ascii) : ascii :=
  if isLower c then ascii_of_nat (nat_of_ascii c - 32) else c.
Definition lowerChar (c : ascii) : ascii :=
  if isUpper c then ascii_of_nat (nat_of_ascii c + 32) else c.

Fixpoint mapString (f : ascii -> ascii) (s : string) : string :=
  match s with
  | EmptyString => EmptyString
  | String c r => String (f c) (mapString f r)
  end.

Fixpoint allChars (p : ascii -> bool) (s : string) : bool :=
  match s with
  | EmptyString => true
  | String c r => p c && allChars p r
  end.

(** [s.toUpperCase()], [s.toLowerCase()]. *)
Definition toUpperCase : string -> string := mapString upperChar.
Definition toLowerCase : string -> string := mapString lowerChar.

(** [s.charAt(0)]: the first character as a string, or the empty string. *)
Definition charAt0 (s : string) : string :=
  match s with
  | EmptyString => EmptyString
  | String c _ => String c EmptyString
  end.

(** [s.slice(1)]. *)
Definition slice1 (s : string) : string :=
  match s with
  | EmptyString => EmptyString
  | String _ r => r
  end.

(** [s.startsWith(p)]. *)
Fixpoint startsWith (p s : string) : bool :=
  match p, s with
  | EmptyString, _ => true
  | String a p', String b s' => Ascii.eqb a b && startsWith p' s'
  | String _ _, EmptyString => false
  end.

(** [s.includes(sub)]: [sub] occurs at some position of [s]. *)
Fixpoint includes (s sub : string) : bool :=
  startsWith sub s ||
  match s with
  | EmptyString => false
  | String _ r => includes r sub
  end.

(** [s.trim()]. *)
Fixpoint trimStart (s : string) : string :=
  match s with
  | EmptyString => EmptyString
  | String c r => if isSpace c then trimStart r else s
  end.

Fixpoint trimEnd (s : string) : string :=
  match s with
  | EmptyString => EmptyString
  | String c r =>
      match trimEnd r with
      | EmptyString => if isSpace c then EmptyString else String c EmptyString
      | r' => String c r'
      end
  end.

Definition trim (s : string) : string := trimEnd (trimStart s).

(** [s.split(sep)] for a one-character separator: the empty string
    splits into one empty piece. *)
Fixpoint split (sep : ascii) (s : string) : list string :=
  match s with
  | EmptyString => [EmptyString]
  | String c r =>
      if Ascii.eqb c sep then EmptyString :: split sep r
      else match split sep r with
           | h :: t => String c h :: t
           | [] => [String c EmptyString]
           end
  end.

(** Truthiness of a string: only the empty string is falsy. *)
Definition truthy (s : string) : bool :=
  match s with
  | EmptyString => false
  | String _ _ => true
  end.

(** [xs.filter(Boolean)] on an array of strings. *)
Definition filterBoolean (xs : list string) : list string :=
  List.filter truthy xs.

(** [a || b] where [a] is a string or [undefined]. *)
Definition orElse (a : option string) (b : option string) : option string :=
  match a with
  | Some s => if truthy s then Some s else b
  | None => b
  end.

(** [a || d] where [d] is a string literal. *)
Definition orDefault (a : option string) (d : string) : string :=
  match a with
  | Some s => if truthy s then s else d
  | None => d
  end.

(** [xs.join(sep)]. *)
Fixpoint join (sep : string) (xs : list string) : string :=
  match xs with
  | [] => EmptyString
  | [x] => x
  | x :: r => x +:+ sep +:+ join sep r
  end.

(** Decimal rendering of an array index in a template. *)
Definition showNat (n : nat) : string := NilEmpty.string_of_uint (Nat.to_uint n).

(** [xs.find(p)]. *)
Definition find {A} (p : A -> bool) (xs : list A) : option A := List.find p xs.

(** String order by code units ([a < b] on strings). *)
Definition ltb (a b : string) : bool :=
  match String.compare a b with
  | Lt => true
  | _ => false
  end.

End Js.

(** ** The shell *)

Module Shell.

(** What [execSync(cmd, { encoding: 'utf8' })] does: it returns the
    standard output of the command line, or throws when the command line
    exits with a non-zero status. *)
Inductive Outcome : Type :=
| Stdout (out : string)
| Throws (status : nat).

(** A snapshot of the machine as the module sees it: the outcome of each
    command line. *)
Definition t : Type := string -> Outcome.

(** A run of [find]: the lines it prints, in order, and its exit status
    (not zero when it could not read some directory). *)
Record FindRun : Type := {
  printed : list string;
  exitStatus : nat
}.

(** The lines as [grep] prints them, each ended by a line feed. *)
Fixpoint unlines (lines : list string) : string :=
  match lines with
  | [] => EmptyString
  | line :: rest => line +:+ String Js.LF (unlines rest)
  end.

(** [find ... | grep -v excluded] under [execSync]: the lines that do not
    contain [excluded]; the status of the pipeline is the one of [grep],
    which is 1 when it selects no line, and [execSync] throws on it. *)
Definition pipeToGrep (excluded : string) (run : FindRun) : Outcome :=
  match List.filter (fun line => negb (Js.includes line excluded)) (printed run) with
  | [] => Throws 1
  | selected => Stdout (unlines selected)
  end.

End Shell.

(** ** [ProjectIntelligence] *)

Module ProjectIntelligence.

Record DirectoryStructure : Type := {
  canonicalLocations : gmap string string;
  forbiddenLocations : list string;
  duplicateStructures : list string
}.

Record NamingPatterns : Type := {
  components : string;
  utilities : string;
  tests : string;
  apiRoutes : string
}.

Record TestingFramework : Type := {
  name : string;
  testPattern : string;
  testLocation : string
}.

(** The fields of [ProjectMap] that the operations below read. *)
Record ProjectMap : Type := {
  structure : DirectoryStructure;
  patterns : NamingPatterns;
  existingFeatures : list string;
  testFramework : TestingFramework
}.

Record ValidationResult : Type := {
  isValid : bool;
  issues : list string;
  suggestions : list string
}.

Record DuplicationCheck : Type := {
  isDuplicate : bool;
  alternatives : list string;
  recommendation : string
}.

(** *** Helper methods *)

Definition findDirectoriesCommand (name : string) : string :=
  "find . -name " +:+ Js.dquote +:+ name +:+ Js.dquote
    +:+ " -type d | grep -v node_modules".

(** [findDirectories]: the [catch] clause turns every failure of the
    command line into the empty array. *)
Definition findDirectories (sh : Shell.t) (name : string) : list string :=
  match sh (findDirectoriesCommand name) with
  | Shell.Stdout result => Js.filterBoolean (Js.split Js.LF (Js.trim result))
  | Shell.Throws _ => []
  end.

Definition findFilesCommand (pattern : string) (directory : option string) : string :=
  let searchPath :=
    match directory with
    | Some d =>
        if Js.truthy d
        then "-path " +:+ Js.dquote +:+ "*/" +:+ d +:+ "/*" +:+ Js.dquote
        else EmptyString
    | None => EmptyString
    end in
  "find . " +:+ searchPath +:+ " -name " +:+ Js.dquote +:+ pattern +:+ Js.dquote
    +:+ " | grep -v node_modules".

Definition findFiles (sh : Shell.t) (pattern : string) (directory : option string)
  : list string :=
  match sh (findFilesCommand pattern directory) with
  | Shell.Stdout result => Js.filterBoolean (Js.split Js.LF (Js.trim result))
  | Shell.Throws _ => []
  end.

(** [locations.find(loc => loc.includes(preferred)) || locations[0]];
    the result is [undefined] exactly on the empty array. *)
Definition selectCanonicalLocation (locations : list string) (preferred : string)
  : option string :=
  Js.orElse (Js.find (fun loc => Js.includes loc preferred) locations)
            (head locations).

(** [/[A-Z][a-z]/.test(file)]: an upper-case letter directly followed by
    a lower-case one, anywhere in the string. *)
Fixpoint testUpperLower (file : string) : bool :=
  match file with
  | String c1 (String c2 _ as r) =>
      (Js.isUpper c1 && Js.isLower c2) || testUpperLower r
  | _ => false
  end.

(** [pascalCaseCount > files.length / 2], the division being exact on
    halves: twice the count exceeds the length. *)
Definition detectNamingPattern (files : list string) : string :=
  let pascalCaseCount := length (List.filter testUpperLower files) in
  if (length files <? 2 * pascalCaseCount)%nat then "PascalCase" else "camelCase".

Definition detectTestPattern (files : list string) : string :=
  if existsb (fun f => Js.includes f ".test.") files then ".test.*"
  else if existsb (fun f => Js.includes f ".spec.") files then ".spec.*"
  else ".test.*".

Definition findSimilarFeatures (pm : ProjectMap) (feature : string) : list string :=
  List.filter
    (fun existing =>
       Js.includes (Js.toLowerCase existing) (Js.toLowerCase feature)
       || Js.includes (Js.toLowerCase feature) (Js.toLowerCase existing))
    (existingFeatures pm).

(** [/^[A-Z][a-zA-Z0-9]*$/], [/^[a-z][a-zA-Z0-9]*$/], [/^[a-z][a-z0-9-]*$/]. *)
Definition testPascal (name : string) : bool :=
  match name with
  | String c r => Js.isUpper c && Js.allChars Js.isAlnum r
  | EmptyString => false
  end.

Definition testCamel (name : string) : bool :=
  match name with
  | String c r => Js.isLower c && Js.allChars Js.isAlnum r
  | EmptyString => false
  end.

Definition testKebab (name : string) : bool :=
  match name with
  | String c r => Js.isLower c && Js.allChars Js.isKebabChar r
  | EmptyString => false
  end.

Definition matchesPattern (name pattern : string) : bool :=
  if String.eqb pattern "PascalCase" then testPascal name
  else if String.eqb pattern "camelCase" then testCamel name
  else if String.eqb pattern "kebab-case" then testKebab name
  else true.

(** [s.replace(/[A-Z]/g, '-$&')]: a hyphen in front of every upper-case
    letter. *)
Fixpoint hyphenateUpper (s : string) : string :=
  match s with
  | EmptyString => EmptyString
  | String c r =>
      if Js.isUpper c then String Js.hyphen (String c (hyphenateUpper r))
      else String c (hyphenateUpper r)
  end.

(** [s.replace(/^-/, '')]. *)
Definition dropLeadingHyphen (s : string) : string :=
  match s with
  | String c r => if Ascii.eqb c Js.hyphen then r else s
  | EmptyString => EmptyString
  end.

Definition suggestCorrectNaming (name pattern : string) : string :=
  if String.eqb pattern "PascalCase"
  then Js.toUpperCase (Js.charAt0 name) +:+ Js.slice1 name
  else if String.eqb pattern "camelCase"
  then Js.toLowerCase (Js.charAt0 name) +:+ Js.slice1 name
  else if String.eqb pattern "kebab-case"
  then dropLeadingHyphen (hyphenateUpper (Js.toLowerCase name))
  else name.

(** *** Analysis *)

Definition emptyStructure : DirectoryStructure :=
  {| canonicalLocations := ∅; forbiddenLocations := []; duplicateStructures := [] |}.

(** One of the three blocks of [mapStructure]: the directories called
    [role] are scanned and, when there is more than one, all of them are
    pushed to [duplicateStructures], one is recorded as canonical and the
    ones different from it are pushed to [forbiddenLocations].  (The
    selection is [undefined] on the empty array only, which the guard
    excludes; the block then records nothing as canonical.) *)
Definition mapRole (sh : Shell.t) (role preferred : string)
    (acc : DirectoryStructure) : DirectoryStructure :=
  let dirs := findDirectories sh role in
  if (1 <? length dirs)%nat then
    match selectCanonicalLocation dirs preferred with
    | Some canonical =>
        {| canonicalLocations := <[role := canonical]> (canonicalLocations acc);
           forbiddenLocations :=
             forbiddenLocations acc
             ++ List.filter (fun dir => negb (String.eqb dir canonical)) dirs;
           duplicateStructures := duplicateStructures acc ++ dirs |}
    | None =>
        {| canonicalLocations := canonicalLocations acc;
           forbiddenLocations := forbiddenLocations acc ++ dirs;
           duplicateStructures := duplicateStructures acc ++ dirs |}
    end
  else acc.

(** [mapStructure]: components, then docs, then lib.  No call inside the
    [try] block throws, so the [catch] clause is never entered. *)
Definition mapStructure (sh : Shell.t) : DirectoryStructure :=
  mapRole sh "lib" "src/lib"
    (mapRole sh "docs" "docs"
       (mapRole sh "components" "src/components" emptyStructure)).

Definition defaultPatterns : NamingPatterns :=
  {| components := "PascalCase";
     utilities := "camelCase";
     tests := ".test.tsx";
     apiRoutes := "kebab-case" |}.

Definition detectPatterns (sh : Shell.t) : NamingPatterns :=
  let patterns := defaultPatterns in
  let componentFiles := findFiles sh "*.tsx" (Some "components") in
  let patterns :=
    if (0 <? length componentFiles)%nat
    then {| components := detectNamingPattern componentFiles;
            utilities := utilities patterns;
            tests := tests patterns;
            apiRoutes := apiRoutes patterns |}
    else patterns in
  let testFiles := findFiles sh "*.test.*" None in
  if (0 <? length testFiles)%nat
  then {| components := components patterns;
          utilities := utilities patterns;
          tests := detectTestPattern testFiles;
          apiRoutes := apiRoutes patterns |}
  else patterns.

(** *** Queries *)

Definition preventDuplication (pm : ProjectMap) (proposedFeature : string)
  : DuplicationCheck :=
  let existing := findSimilarFeatures pm proposedFeature in
  {| isDuplicate := (0 <? length existing)%nat;
     alternatives := existing;
     recommendation :=
       match existing with
       | first :: _ => "Consider extending existing: " +:+ first
       | [] => "Safe to create new feature"
       end |}.

Definition suggestLocation (pm : ProjectMap) (fileType featureName : string) : string :=
  let canonical := canonicalLocations (structure pm) in
  if String.eqb fileType "component"
  then Js.orDefault (canonical !! "components") "src/components"
  else if String.eqb fileType "utility"
  then Js.orDefault (canonical !! "lib") "src/lib"
  else if String.eqb fileType "test"
  then Js.orDefault (Some (testLocation (testFramework pm))) "__tests__"
  else if String.eqb fileType "documentation"
  then Js.orDefault (canonical !! "docs") "docs"
  else "src".

(** [patterns[fileType]]: the four own properties of the patterns
    object; any other key gives no string.  (A key inherited from
    [Object.prototype] gives a value that is not a string and that
    [matchesPattern] accepts through its default case, so no issue is
    recorded for it either.) *)
Definition patternFor (p : NamingPatterns) (fileType : string) : option string :=
  if String.eqb fileType "components" then Some (components p)
  else if String.eqb fileType "utilities" then Some (utilities p)
  else if String.eqb fileType "tests" then Some (tests p)
  else if String.eqb fileType "apiRoutes" then Some (apiRoutes p)
  else None.

Definition namingIssue (pattern : string) : string :=
  "Name doesn't match " +:+ pattern +:+ " pattern".

Definition namingSuggestion (proposedName pattern : string) : string :=
  "Consider: " +:+ suggestCorrectNaming proposedName pattern.

Definition conflictIssue : string := "Similar feature already exists".

Definition conflictSuggestion (existing : list string) : string :=
  "Existing: " +:+ Js.join ", " existing.

Definition validateNaming (pm : ProjectMap) (proposedName fileType : string)
  : ValidationResult :=
  let issues := [] in
  let suggestions := [] in
  (* Check naming pattern *)
  let '(issues, suggestions) :=
    match patternFor (patterns pm) fileType with
    | Some pattern =>
        if Js.truthy pattern && negb (matchesPattern proposedName pattern)
        then (issues ++ [namingIssue pattern],
              suggestions ++ [namingSuggestion proposedName pattern])
        else (issues, suggestions)
    | None => (issues, suggestions)
    end in
  (* Check for conflicts *)
  let existing := findSimilarFeatures pm proposedName in
  let '(issues, suggestions) :=
    if (0 <? length existing)%nat
    then (issues ++ [conflictIssue], suggestions ++ [conflictSuggestion existing])
    else (issues, suggestions) in
  {| isValid := (length issues =? 0)%nat;
     issues := issues;
     suggestions := suggestions |}.

End ProjectIntelligence.

(** ** The file system *)

Module Fs.

(** Regular files with their contents, and directories. *)
Record t : Type := {
  files : gmap string string;
  dirs : gset string
}.

Definition empty : t := {| files := ∅; dirs := ∅ |}.

(** The two functions of Node's [path] module that the protocol calls. *)
Class Path : Type := {
  join : list string -> string;
  dirname : string -> string
}.

(** The errors of the file system that the calls below can throw. *)
Inductive Error : Type :=
| EISDIR
| ENOTDIR
| ENOENT
| EEXIST.

(** How a call ended. *)
Inductive Completion : Type :=
| Returned
| Threw (e : Error).

(** The file system a call leaves, and how the call ended. *)
Definition Outcome : Type := t * Completion.

(** Sequencing: an exception ends the calls that follow. *)
Definition andThen (o : Outcome) (next : t -> Outcome) : Outcome :=
  match o with
  | (fs, Returned) => next fs
  | (fs, Threw e) => (fs, Threw e)
  end.

Definition isFile (p : string) (fs : t) : bool :=
  bool_decide (is_Some (files fs !! p)).

Definition isDirectory (p : string) (fs : t) : bool :=
  bool_decide (p ∈ dirs fs).

(** [existsSync(p)]. *)
Definition existsSync (p : string) (fs : t) : bool :=
  bool_decide (is_Some (files fs !! p)) || bool_decide (p ∈ dirs fs).

(** [p] and the directories above it, up to the one that is its own
    parent. *)
Fixpoint chain `{Path} (fuel : nat) (p : string) : list string :=
  match fuel with
  | O => []
  | S fuel' =>
      let parent := dirname p in
      if String.eqb parent p then [p] else p :: chain fuel' parent
  end.

(** [mkdirSync(p, { recursive: true })]: makes [p] and the missing
    directories above it; throws, making nothing, when [p] or a path above
    it is a regular file. *)
Definition mkdirSync `{Path} (p : string) (fs : t) : Outcome :=
  let above := chain (S (String.length p)) p in
  if isFile p fs then (fs, Threw EEXIST)
  else if existsb (fun a => isFile a fs) above then (fs, Threw ENOTDIR)
  else ({| files := files fs; dirs := list_to_set above ∪ dirs fs |}, Returned).

(** [writeFileSync(p, content)]: creates the file or replaces its
    content; throws, writing nothing, when [p] is a directory, when a path
    above [p] is a regular file, or when the parent of [p] is missing. *)
Definition writeFileSync `{Path} (p content : string) (fs : t) : Outcome :=
  let parent := dirname p in
  if isDirectory p fs then (fs, Threw EISDIR)
  else if isDirectory parent fs
  then ({| files := <[p := content]> (files fs); dirs := dirs fs |}, Returned)
  else if existsb (fun a => isFile a fs) (chain (S (String.length parent)) parent)
  then (fs, Threw ENOTDIR)
  else (fs, Threw ENOENT).

(** [fs'] has every file and every directory of [fs]. *)
Definition extends (fs fs' : t) : Prop :=
  (forall p, is_Some (files fs !! p) -> is_Some (files fs' !! p))
  /\ dirs fs ⊆ dirs fs'.

(** A plain model of [path.join] and [path.dirname] for relative paths
    whose segments need no normalisation. *)
Fixpoint beforeLastSlash (s : string) : option string :=
  match s with
  | EmptyString => None
  | String c r =>
      match beforeLastSlash r with
      | Some d => Some (String c d)
      | None => if Ascii.eqb c (ascii_of_nat 47) then Some EmptyString else None
      end
  end.

Definition plainJoin (segments : list string) : string :=
  Js.join "/" (Js.filterBoolean segments).

Definition plainDirname (p : string) : string :=
  match beforeLastSlash p with
  | Some d => if Js.truthy d then d else "/"
  | None => "."
  end.

Definition plainPath : Path := {| join := plainJoin; dirname := plainDirname |}.

End Fs.

(** ** [TDDProtocol] *)

Module TDDProtocol.

Import ProjectIntelligence.

Record TDDConfig : Type := {
  testFramework : string;
  testLocation : string;
  componentLocation : string;
  utilityLocation : string
}.

(** [type] is a string at run time: the [switch] statements over it have a
    [default] case. *)
Record FeatureSpec : Type := {
  name : string;
  type : string;
  description : string;
  inputs : option (list string);
  outputs : option (list string);
  errorCases : option (list string)
}.

(** The object: its [intelligence] (the project map it holds) and its
    [config]. *)
Record t : Type := {
  intelligence : ProjectMap;
  config : TDDConfig
}.

Definition detectTDDConfig (projectMap : ProjectMap) : TDDConfig :=
  {| testFramework := "jest";
     testLocation :=
       Js.orDefault
         (Some (ProjectIntelligence.testLocation (ProjectIntelligence.testFramework projectMap)))
         "__tests__";
     componentLocation :=
       Js.orDefault (canonicalLocations (structure projectMap) !! "components")
         "src/components";
     utilityLocation :=
       Js.orDefault (canonicalLocations (structure projectMap) !! "lib") "src/lib" |}.

Definition new (projectMap : ProjectMap) : t :=
  {| intelligence := projectMap; config := detectTDDConfig projectMap |}.

(** [xs?.map(f).join(sep) || ''], [xs?.map((x, i) => f).join(sep) || '']
    and [xs?.join(sep) || '']. *)
Definition mapJoin (f : string -> string) (sep : string) (xs : option (list string))
  : string :=
  match xs with
  | Some l => Js.join sep (List.map f l)
  | None => EmptyString
  end.

Definition imapJoin (f : nat -> string -> string) (sep : string)
    (xs : option (list string)) : string :=
  match xs with
  | Some l => Js.join sep (imap f l)
  | None => EmptyString
  end.

Definition optJoin (sep : string) (xs : option (list string)) : string :=
  match xs with
  | Some l => Js.join sep l
  | None => EmptyString
  end.

(** *** Templates *)

Definition generateComponentTest (spec : FeatureSpec) (importPath : string) : string :=
  "import React from 'react';
import { render, screen, fireEvent, waitFor } from '@testing-library/react';
import "
  +:+ name spec
  +:+ " from '"
  +:+ importPath
  +:+ "';

describe('"
  +:+ name spec
  +:+ "', () => {
  // Basic rendering test
  it('should render without crashing', () => {
    render(<"
  +:+ name spec
  +:+ " />);
    expect(screen.getByRole('main')).toBeInTheDocument();
  });

  // Functionality tests
  it('should handle user interactions', async () => {
    render(<"
  +:+ name spec
  +:+ " />);
    
    // Add specific interaction tests based on spec
    "
  +:+ (mapJoin (fun input =>
      "
    // Test "
      +:+ input
      +:+ " input
    const "
      +:+ input
      +:+ "Element = screen.getByLabelText('"
      +:+ input
      +:+ "');
    fireEvent.change("
      +:+ input
      +:+ "Element, { target: { value: 'test value' } });
    expect("
      +:+ input
      +:+ "Element).toHaveValue('test value');")
    EmptyString (inputs spec))
  +:+ "
  });

  // Error handling tests
  it('should handle errors gracefully', async () => {
    render(<"
  +:+ name spec
  +:+ " />);
    
    "
  +:+ (mapJoin (fun errorCase =>
      "
    // Test "
      +:+ errorCase
      +:+ " error case
    // Implementation should not crash and show appropriate error message")
    EmptyString (errorCases spec))
  +:+ "
  });

  // Self-healing tests
  it('should recover from failures automatically', async () => {
    render(<"
  +:+ name spec
  +:+ " />);
    
    // Test automatic recovery mechanisms
    // Component should handle network failures, invalid data, etc.
  });
});".

Definition generateUtilityTest (spec : FeatureSpec) (importPath : string) : string :=
  "import { "
  +:+ name spec
  +:+ " } from '"
  +:+ importPath
  +:+ "';

describe('"
  +:+ name spec
  +:+ "', () => {
  // Basic functionality test
  it('should perform expected operation', () => {
    "
  +:+ (imapJoin (fun index input =>
      "
    const input"
      +:+ Js.showNat (index + 1)
      +:+ " = 'test"
      +:+ Js.showNat (index + 1)
      +:+ "';")
    EmptyString (inputs spec))
  +:+ "
    
    const result = "
  +:+ name spec
  +:+ "("
  +:+ (imapJoin (fun index _ =>
      "input"
      +:+ Js.showNat (index + 1))
    ", " (inputs spec))
  +:+ ");
    
    "
  +:+ (mapJoin (fun output =>
      "
    expect(result).toHaveProperty('"
      +:+ output
      +:+ "');")
    EmptyString (outputs spec))
  +:+ "
  });

  // Input validation tests
  it('should validate inputs properly', () => {
    // Test invalid inputs
    expect(() => "
  +:+ name spec
  +:+ "(null)).not.toThrow();
    expect(() => "
  +:+ name spec
  +:+ "(undefined)).not.toThrow();
    expect(() => "
  +:+ name spec
  +:+ "('')).not.toThrow();
  });

  // Error handling tests
  it('should handle errors gracefully', () => {
    "
  +:+ (mapJoin (fun errorCase =>
      "
    // Test "
      +:+ errorCase
      +:+ " error case
    expect(() => "
      +:+ name spec
      +:+ "(/* invalid input */)).not.toThrow();")
    EmptyString (errorCases spec))
  +:+ "
  });

  // Self-healing tests
  it('should provide fallback values', () => {
    const result = "
  +:+ name spec
  +:+ "(/* problematic input */);
    expect(result).toBeDefined();
    // Should return safe default value
  });
});".

Definition generateApiTest (spec : FeatureSpec) (importPath : string) : string :=
  "import { createMocks } from 'node-mocks-http';
import handler from '"
  +:+ importPath
  +:+ "';

describe('/api/"
  +:+ Js.toLowerCase (name spec)
  +:+ "', () => {
  it('should handle GET requests', async () => {
    const { req, res } = createMocks({
      method: 'GET',
    });

    await handler(req, res);

    expect(res._getStatusCode()).toBe(200);
  });

  it('should validate request data', async () => {
    const { req, res } = createMocks({
      method: 'POST',
      body: {}, // Invalid data
    });

    await handler(req, res);

    expect(res._getStatusCode()).toBe(400);
  });

  it('should handle errors gracefully', async () => {
    // Test error scenarios
    const { req, res } = createMocks({
      method: 'POST',
      body: { /* malformed data */ },
    });

    await handler(req, res);

    // Should not crash, should return appropriate error
    expect(res._getStatusCode()).toBeGreaterThanOrEqual(400);
  });
});".

Definition generateHookTest (spec : FeatureSpec) (importPath : string) : string :=
  "import { renderHook, act } from '@testing-library/react';
import { "
  +:+ name spec
  +:+ " } from '"
  +:+ importPath
  +:+ "';

describe('"
  +:+ name spec
  +:+ "', () => {
  it('should initialize with default values', () => {
    const { result } = renderHook(() => "
  +:+ name spec
  +:+ "());
    
    expect(result.current).toBeDefined();
  });

  it('should handle state updates', () => {
    const { result } = renderHook(() => "
  +:+ name spec
  +:+ "());
    
    act(() => {
      // Test state updates
    });
    
    // Verify state changes
  });

  it('should handle errors gracefully', () => {
    const { result } = renderHook(() => "
  +:+ name spec
  +:+ "());
    
    act(() => {
      // Trigger error condition
    });
    
    // Should not crash, should handle error
    expect(result.current).toBeDefined();
  });
});".

Definition generateGenericTest (spec : FeatureSpec) (importPath : string) : string :=
  "import { "
  +:+ name spec
  +:+ " } from '"
  +:+ importPath
  +:+ "';

describe('"
  +:+ name spec
  +:+ "', () => {
  it('should work as expected', () => {
    // Basic functionality test
    expect("
  +:+ name spec
  +:+ ").toBeDefined();
  });

  it('should handle edge cases', () => {
    // Error handling test
    // Implementation should be robust
  });
});".

Definition generateMinimalComponent (spec : FeatureSpec) : string :=
  "import React from 'react';

interface "
  +:+ name spec
  +:+ "Props {
  // Add props based on spec
}

const "
  +:+ name spec
  +:+ ": React.FC<"
  +:+ name spec
  +:+ "Props> = () => {
  return (
    <div role="
  +:+ Js.dquote
  +:+ "main"
  +:+ Js.dquote
  +:+ ">
      <h1>"
  +:+ name spec
  +:+ "</h1>
      <p>"
  +:+ description spec
  +:+ "</p>
    </div>
  );
};

export default "
  +:+ name spec
  +:+ ";".

Definition generateSelfHealingComponent (spec : FeatureSpec) : string :=
  "import React, { useState, useEffect, useCallback } from 'react';

interface "
  +:+ name spec
  +:+ "Props {
  // Add props based on spec
}

interface "
  +:+ name spec
  +:+ "State {
  isLoading: boolean;
  error: string | null;
  data: any;
}

const "
  +:+ name spec
  +:+ ": React.FC<"
  +:+ name spec
  +:+ "Props> = () => {
  const [state, setState] = useState<"
  +:+ name spec
  +:+ "State>({
    isLoading: false,
    error: null,
    data: null
  });

  // Self-healing error recovery
  const handleError = useCallback((error: Error) => {
    console.error('"
  +:+ name spec
  +:+ " error:', error);
    setState(prev => ({ ...prev, error: error.message, isLoading: false }));
    
    // Auto-recovery attempt
    setTimeout(() => {
      setState(prev => ({ ...prev, error: null }));
    }, 5000);
  }, []);

  // Validate state continuously
  useEffect(() => {
    if (!state.data && !state.isLoading && !state.error) {
      // Auto-initialize if needed
    }
  }, [state]);

  if (state.error) {
    return (
      <div role="
  +:+ Js.dquote
  +:+ "alert"
  +:+ Js.dquote
  +:+ " className="
  +:+ Js.dquote
  +:+ "error-boundary"
  +:+ Js.dquote
  +:+ ">
        <h2>Something went wrong</h2>
        <p>{state.error}</p>
        <button onClick={() => setState(prev => ({ ...prev, error: null }))}>
          Try Again
        </button>
      </div>
    );
  }

  return (
    <div role="
  +:+ Js.dquote
  +:+ "main"
  +:+ Js.dquote
  +:+ ">
      <h1>"
  +:+ name spec
  +:+ "</h1>
      <p>"
  +:+ description spec
  +:+ "</p>
      {state.isLoading && <div>Loading...</div>}
    </div>
  );
};

export default "
  +:+ name spec
  +:+ ";".

Definition generateMinimalUtility (spec : FeatureSpec) : string :=
  "/**
 * "
  +:+ description spec
  +:+ "
 */
export function "
  +:+ name spec
  +:+ "("
  +:+ (mapJoin (fun input =>
      input
      +:+ ": any")
    ", " (inputs spec))
  +:+ "): any {
  // Minimal implementation to pass tests
  return {};
}".

Definition generateSelfHealingUtility (spec : FeatureSpec) : string :=
  "/**
 * "
  +:+ description spec
  +:+ "
 * Self-healing utility with error recovery
 */

interface "
  +:+ name spec
  +:+ "Options {
  retries?: number;
  timeout?: number;
  fallback?: any;
}

export function "
  +:+ name spec
  +:+ "(
  "
  +:+ (mapJoin (fun input =>
      input
      +:+ ": any")
    ", " (inputs spec))
  +:+ ",
  options: "
  +:+ name spec
  +:+ "Options = {}
): any {
  const { retries = 3, timeout = 5000, fallback = null } = options;

  try {
    // Input validation
    "
  +:+ (mapJoin (fun input =>
      "
    if ("
      +:+ input
      +:+ " == null) {
      console.warn('"
      +:+ name spec
      +:+ ": Invalid "
      +:+ input
      +:+ ", using fallback');
      return fallback;
    }")
    EmptyString (inputs spec))
  +:+ "

    // Main implementation with timeout
    const result = performOperation("
  +:+ optJoin ", " (inputs spec)
  +:+ ");
    
    // Output validation
    if (result == null) {
      throw new Error('Invalid result');
    }

    return result;
  } catch (error) {
    console.error('"
  +:+ name spec
  +:+ " error:', error);
    
    // Auto-retry mechanism
    if (retries > 0) {
      console.log('"
  +:+ name spec
  +:+ ": Retrying...', { retries });
      return "
  +:+ name spec
  +:+ "("
  +:+ optJoin ", " (inputs spec)
  +:+ ", { ...options, retries: retries - 1 });
    }
    
    // Fallback value
    return fallback;
  }
}

function performOperation("
  +:+ (mapJoin (fun input =>
      input
      +:+ ": any")
    ", " (inputs spec))
  +:+ "): any {
  // Core implementation logic
  return {};
}".

(** Placeholder implementations for the other generators. *)
Definition generateMinimalApi (spec : FeatureSpec) : string := "// API implementation".
Definition generateMinimalHook (spec : FeatureSpec) : string := "// Hook implementation".
Definition generateMinimalGeneric (spec : FeatureSpec) : string := "// Generic implementation".
Definition generateSelfHealingApi (spec : FeatureSpec) : string := "// Self-healing API".
Definition generateSelfHealingHook (spec : FeatureSpec) : string := "// Self-healing hook".
Definition generateSelfHealingGeneric (spec : FeatureSpec) : string := "// Self-healing generic".

(** *** Dispatch on the kind *)

Definition getRelativeImportPath (spec : FeatureSpec) : string :=
  "../../" +:+ type spec +:+ "s/" +:+ name spec.

Definition generateTestContent (spec : FeatureSpec) : string :=
  let importPath := getRelativeImportPath spec in
  if String.eqb (type spec) "component" then generateComponentTest spec importPath
  else if String.eqb (type spec) "utility" then generateUtilityTest spec importPath
  else if String.eqb (type spec) "api" then generateApiTest spec importPath
  else if String.eqb (type spec) "hook" then generateHookTest spec importPath
  else generateGenericTest spec importPath.

Definition generateMinimalImplementation (spec : FeatureSpec) : string :=
  if String.eqb (type spec) "component" then generateMinimalComponent spec
  else if String.eqb (type spec) "utility" then generateMinimalUtility spec
  else if String.eqb (type spec) "api" then generateMinimalApi spec
  else if String.eqb (type spec) "hook" then generateMinimalHook spec
  else generateMinimalGeneric spec.

Definition generateSelfHealingImplementation (spec : FeatureSpec) : string :=
  if String.eqb (type spec) "component" then generateSelfHealingComponent spec
  else if String.eqb (type spec) "utility" then generateSelfHealingUtility spec
  else if String.eqb (type spec) "api" then generateSelfHealingApi spec
  else if String.eqb (type spec) "hook" then generateSelfHealingHook spec
  else generateSelfHealingGeneric spec.

(** *** Paths and writes *)

Section Writes.
Context `{Fs.Path}.

Definition getTestPath (this : t) (spec : FeatureSpec) : string :=
  let testDir := Fs.join [testLocation (config this); type spec +:+ "s"] in
  Fs.join [testDir; name spec +:+ ".test.tsx"].

Definition getImplementationPath (this : t) (spec : FeatureSpec) : string :=
  if String.eqb (type spec) "component"
  then Fs.join [componentLocation (config this); name spec +:+ ".tsx"]
  else if String.eqb (type spec) "utility"
  then Fs.join [utilityLocation (config this); name spec +:+ ".ts"]
  else if String.eqb (type spec) "api"
  then Fs.join ["src/app/api"; Js.toLowerCase (name spec); "route.ts"]
  else if String.eqb (type spec) "hook"
  then Fs.join ["src/hooks"; "use" +:+ name spec +:+ ".ts"]
  else Fs.join ["src"; name spec +:+ ".ts"].

Definition ensureDirectoryExists (dirPath : string) (fs : Fs.t) : Fs.Outcome :=
  if negb (Fs.existsSync dirPath fs) then Fs.mkdirSync dirPath fs else (fs, Fs.Returned).

(** Step 1: the failing test. *)
Definition createFailingTest (this : t) (spec : FeatureSpec) (fs : Fs.t) : Fs.Outcome :=
  let testPath := getTestPath this spec in
  let testContent := generateTestContent spec in
  Fs.andThen (ensureDirectoryExists (Fs.dirname testPath) fs)
    (Fs.writeFileSync testPath testContent).

(** Step 2: the minimal implementation. *)
Definition createMinimalImplementation (this : t) (spec : FeatureSpec) (fs : Fs.t)
  : Fs.Outcome :=
  let implementationPath := getImplementationPath this spec in
  let implementationContent := generateMinimalImplementation spec in
  Fs.andThen (ensureDirectoryExists (Fs.dirname implementationPath) fs)
    (Fs.writeFileSync implementationPath implementationContent).

(** Step 3: the self-healing implementation, written to the same path. *)
Definition addSelfHealingMechanisms (this : t) (spec : FeatureSpec) (fs : Fs.t)
  : Fs.Outcome :=
  let implementationPath := getImplementationPath this spec in
  let enhancedContent := generateSelfHealingImplementation spec in
  Fs.writeFileSync implementationPath enhancedContent fs.

(** Steps 1 to 3 in the order in which [createFeature] runs them. *)
Definition writeSteps (this : t) (spec : FeatureSpec) (fs : Fs.t) : Fs.Outcome :=
  Fs.andThen (createFailingTest this spec fs)
    (fun fs =>
       Fs.andThen (createMinimalImplementation this spec fs)
         (addSelfHealingMechanisms this spec)).

(** [createFeature]: the two checks return early and leave the file
    system as it is; otherwise the three steps run in order, and an
    exception of the file system in one of them rejects the promise.
    (Console output is not modelled.) *)
Definition createFeature (this : t) (spec : FeatureSpec) (fs : Fs.t) : Fs.Outcome :=
  let duplicationCheck := preventDuplication (intelligence this) (name spec) in
  if isDuplicate duplicationCheck then (fs, Fs.Returned)
  else
    let namingValidation := validateNaming (intelligence this) (name spec) (type spec) in
    if negb (isValid namingValidation) then (fs, Fs.Returned)
    else
      Fs.andThen (createFailingTest this spec fs)
        (fun fs =>
           Fs.andThen (createMinimalImplementation this spec fs)
             (addSelfHealingMechanisms this spec)).

End Writes.

End TDDProtocol.

(** ** The specification's wording of two operations

    These two definitions follow the words of the specification, not the
    source; they are what the source is compared with. *)

Module Spec.

Import ProjectIntelligence.

(** The three candidate conventions, in priority order. *)
Definition conventions : list string := ["PascalCase"; "camelCase"; "kebab-case"].

(** The feature kinds. *)
Definition kinds : list string := ["component"; "utility"; "api"; "hook"].

(** The lexicographically-first path of a list. *)
Fixpoint lexFirst (paths : list string) : option string :=
  match paths with
  | [] => None
  | p :: rest =>
      match lexFirst rest with
      | Some q => if Js.ltb q p then Some q else Some p
      | None => Some p
      end
  end.

(** Duplicate detector: the first path containing the preferred
    substring, else the lexicographically-first path. *)
Definition canonical (paths : list string) (preferred : string) : option string :=
  match List.find (fun p => Js.includes p preferred) paths with
  | Some p => Some p
  | None => lexFirst paths
  end.

(** Naming inferencer: each filename is classified against the regex of
    each convention; the convention with the highest match count wins, ties
    going to PascalCase, then camelCase, then kebab-case. *)
Definition matchCount (convention : string) (filenames : list string) : nat :=
  length (List.filter (fun f => matchesPattern f convention) filenames).

Definition inferConvention (filenames : list string) : string :=
  let pascal := matchCount "PascalCase" filenames in
  let camel := matchCount "camelCase" filenames in
  let kebab := matchCount "kebab-case" filenames in
  if ((camel <=? pascal) && (kebab <=? pascal))%nat then "PascalCase"
  else if (kebab <=? camel)%nat then "camelCase"
  else "kebab-case".

End Spec.

(** ** Scenarios and tables used in the statements *)

Module Scenario.

Import ProjectIntelligence.

(** The end-to-end scenario of the specification: [find] reports three
    directories called components; every other command line fails. *)
Definition threeComponents : Shell.t :=
  fun cmd =>
    if String.eqb cmd (findDirectoriesCommand "components")
    then Shell.Stdout "./components
./lib/components
./src/components
"
    else Shell.Throws 1.

(** A machine on which every command line fails, as the [find] pipeline
    does when its root does not exist (nothing reaches [grep -v], which
    then exits with status 1). *)
Definition missingRoot : Shell.t := fun _ => Shell.Throws 1.

(** The file types of [suggestLocation] that read the canonical map, each
    with the role it reads and its default. *)
Definition locationRoles : list (string * string * string) :=
  [("component", "components", "src/components");
   ("utility", "lib", "src/lib");
   ("documentation", "docs", "docs")].

(** A project map with the defaults of an empty project. *)
Definition emptyProject : ProjectMap :=
  {| structure := emptyStructure;
     patterns := defaultPatterns;
     existingFeatures := [];
     testFramework :=
       {| name := "unknown"; testPattern := "*.test.*"; testLocation := "__tests__" |} |}.

(** The project map of the three-directories scenario. *)
Definition threeComponentsProject : ProjectMap :=
  {| structure := mapStructure threeComponents;
     patterns := defaultPatterns;
     existingFeatures := [];
     testFramework := testFramework emptyProject |}.

(** A line of a command's output: not empty, and without a line feed. *)
Definition lineOfOutput (p : string) : Prop :=
  Js.truthy p = true /\ Js.allChars (fun c => negb (Ascii.eqb c Js.LF)) p = true.

(** Two feature specifications: a component, and a feature of a kind
    outside the four. *)
Definition componentX : TDDProtocol.FeatureSpec :=
  {| TDDProtocol.name := "X";
     TDDProtocol.type := "component";
     TDDProtocol.description := "An example component";
     TDDProtocol.inputs := None;
     TDDProtocol.outputs := None;
     TDDProtocol.errorCases := None |}.


(** A feature whose kind is the key of a pattern, its name not in the
    form of the pattern. *)
Definition componentsLoginForm : TDDProtocol.FeatureSpec :=
  {| TDDProtocol.name := "login-form";
     TDDProtocol.type := "components";
     TDDProtocol.description := "An example form";
     TDDProtocol.inputs := None;
     TDDProtocol.outputs := None;
     TDDProtocol.errorCases := None |}.

(** The protocol object of an empty project. *)
Definition protocol : TDDProtocol.t := TDDProtocol.new emptyProject.

(** A file system in which the test file of [componentX] already exists. *)
Definition withOldTest : Fs.t :=
  {| Fs.files := {["__tests__/components/X.test.tsx" := "old"]};
     Fs.dirs := {["."; "__tests__"; "__tests__/components"]} |}.

(** A file system in which a regular file stands where the test
    directory of components should be. *)
Definition fileAtTestDirectory : Fs.t :=
  {| Fs.files := {["__tests__/components" := "not a directory"]};
     Fs.dirs := {["."; "__tests__"]} |}.

(** A machine on which [find] reports one directory called components. *)
Definition oneComponent : Shell.t :=
  fun cmd =>
    if String.eqb cmd (findDirectoriesCommand "components")
    then Shell.Stdout "./app/components
"
    else Shell.Throws 1.

Definition oneComponentProject : ProjectMap :=
  {| structure := mapStructure oneComponent;
     patterns := defaultPatterns;
     existingFeatures := [];
     testFramework := testFramework emptyProject |}.

(** A machine on which the scan for component files prints the given
    text. *)
Definition componentFiles (out : string) : Shell.t :=
  fun cmd =>
    if String.eqb cmd (findFilesCommand "*.tsx" (Some "components"))
    then Shell.Stdout out
    else Shell.Throws 1.

Definition pascalFiles : Shell.t := componentFiles "Foo.tsx
Bar.tsx
Baz.tsx
".

Definition camelFiles : Shell.t := componentFiles "foo.ts
barBaz.ts
".

(** A line as [find] prints it for a path without white space at its
    ends: not empty, without a line feed, unchanged by [trim]. *)
Definition cleanLine (line : string) : Prop :=
  Js.truthy line = true
  /\ Js.allChars (fun c => negb (Ascii.eqb c Js.LF)) line = true
  /\ Js.trimStart line = line
  /\ Js.trimEnd line = line.

(** A run of [find] that cannot read a subdirectory: it prints the
    matches it reaches and exits with status 1. *)
Definition unreadableSubdirectory : Shell.FindRun :=
  {| Shell.printed := ["./src/components"; "./node_modules/ui/components"; "./components"];
     Shell.exitStatus := 1 |}.

(** A machine on which every scan is the given run of [find]. *)
Definition running (run : Shell.FindRun) : Shell.t :=
  fun _ => Shell.pipeToGrep "node_modules" run.

End Scenario.

(** ** JSON values *)

Module Json.

(** What [JSON.parse] returns.  A number is kept up to whether it is
    zero, which is all that truthiness reads. *)
#[warnings="-register-all"]
Inductive t : Type :=
| Null
| Bool (b : bool)
| Number (nonzero : bool)
| Str (s : string)
| Array (items : list t)
| Object (members : list (string * t)).

Definition truthy (v : t) : bool :=
  match v with
  | Null => false
  | Bool b => b
  | Number nonzero => nonzero
  | Str s => Js.truthy s
  | Array _ => true
  | Object _ => true
  end.

(** The member of an object under a key; of repeated members the last
    one stands. *)
Fixpoint member (key : string) (members : list (string * t)) : option t :=
  match members with
  | [] => None
  | (k, v) :: rest =>
      match member key rest with
      | Some w => Some w
      | None => if String.eqb k key then Some v else None
      end
  end.

(** [v[key]] on a value that is not [null], for a key that is neither an
    array index nor the name of a built-in property: an own member of an
    object, otherwise [undefined]. *)
Definition get (v : t) (key : string) : option t :=
  match v with
  | Object members => member key members
  | _ => None
  end.

End Json.

(** ** [ProjectIntelligence]: the rest of the analysis *)

Module Analysis.

Import ProjectIntelligence.

Record ProjectConventions : Type := {
  framework : string;
  language : string;
  testingFramework : string;
  stylingFramework : string
}.

Inductive ConflictType : Type :=
| duplicate_directory
| naming_conflict
| functionality_overlap.

Record ConflictReport : Type := {
  type : ConflictType;
  location : string;
  recommendation : string
}.

(** The whole project map: the fields of [ProjectMap] with the two
    remaining ones. *)
Record FullProjectMap : Type := {
  core : ProjectMap;
  conventions : ProjectConventions;
  conflicts : list ConflictReport
}.

(** The suffixes that [/\.(ts|tsx|js|jsx)$/] matches. *)
Definition isSourceExtension (s : string) : bool :=
  String.eqb s ".ts" || String.eqb s ".tsx" || String.eqb s ".js" || String.eqb s ".jsx".

(** [s.replace(/\.(ts|tsx|js|jsx)$/, '')]: the string is cut at the
    leftmost position from which the rest is one of the suffixes. *)
Fixpoint stripSourceExtension (s : string) : string :=
  match s with
  | EmptyString => EmptyString
  | String c r =>
      if isSourceExtension s then EmptyString else String c (stripSourceExtension r)
  end.

Definition slash : ascii := ascii_of_nat 47.

Definition extractFeatureName (filePath : string) : string :=
  let fileName := Js.orDefault (last (Js.split slash filePath)) EmptyString in
  stripSourceExtension fileName.

Definition catalogFeatures (sh : Shell.t) : list string :=
  let features := [] in
  (* Find component files *)
  let componentFiles := findFiles sh "*.tsx" (Some "components") in
  let features := features ++ List.map extractFeatureName componentFiles in
  (* Find utility files *)
  let utilFiles := findFiles sh "*.ts" (Some "lib") in
  let features := features ++ List.map extractFeatureName utilFiles in
  (* Find API routes *)
  let apiFiles := findFiles sh "*.ts" (Some "api") in
  let features := features ++ List.map extractFeatureName apiFiles in
  Js.filterBoolean features.

(** [this.projectMap?.structure?.duplicateStructures?.forEach(...)]: no
    report while the object has no project map yet. *)
Definition detectPotentialConflicts (thisProjectMap : option FullProjectMap)
  : list ConflictReport :=
  match thisProjectMap with
  | Some projectMap =>
      List.map
        (fun duplicate =>
           {| type := duplicate_directory;
              location := duplicate;
              recommendation := "Consolidate with canonical location" |})
        (duplicateStructures (structure (core projectMap)))
  | None => []
  end.

Section WithFiles.
Context `{Fs.Path}.

(** [JSON.parse], which throws on a text that is not JSON ([None]). *)
Variable JSON_parse : string -> option Json.t.

Definition detectTestFramework (projectRoot : string) (sh : Shell.t) (fs : Fs.t)
  : TestingFramework :=
  let testDirs := findDirectories sh "test" in
  {| name :=
       if Fs.existsSync (Fs.join [projectRoot; "jest.config.js"]) fs
       then "jest" else "unknown";
     testPattern := "*.test.*";
     testLocation :=
       match testDirs with
       | first :: _ => first
       | [] => "__tests__"
       end |}.

(** [packageJson[field]?.[key]] read as a condition, [packageJson] not
    being [null]. *)
Definition dependencyDeclared (packageJson : Json.t) (field key : string) : bool :=
  match Json.get packageJson field with
  | None => false
  | Some Json.Null => false
  | Some dependencies =>
      match Json.get dependencies key with
      | Some v => Json.truthy v
      | None => false
      end
  end.

Definition unknownConventions : ProjectConventions :=
  {| framework := "unknown";
     language := "unknown";
     testingFramework := "unknown";
     stylingFramework := "unknown" |}.

(** The first half of the [try] block of [extractConventions]: the
    conventions read from [package.json], or [None] when an exception is
    thrown (the file cannot be read as a file, its text is not JSON, or
    it is the JSON [null], whose properties cannot be read). *)
Definition readPackageConventions (projectRoot : string) (fs : Fs.t)
  : option ProjectConventions :=
  let conventions := unknownConventions in
  if Fs.existsSync (Fs.join [projectRoot; "package.json"]) fs then
    match Fs.files fs !! Fs.join [projectRoot; "package.json"] with
    | None => None
    | Some text =>
        match JSON_parse text with
        | None => None
        | Some Json.Null => None
        | Some packageJson =>
            Some
              {| framework :=
                   if dependencyDeclared packageJson "dependencies" "next" then "nextjs"
                   else if dependencyDeclared packageJson "dependencies" "react" then "react"
                   else if dependencyDeclared packageJson "dependencies" "vue" then "vue"
                   else framework conventions;
                 language := language conventions;
                 testingFramework :=
                   if dependencyDeclared packageJson "devDependencies" "jest" then "jest"
                   else testingFramework conventions;
                 stylingFramework :=
                   if dependencyDeclared packageJson "dependencies" "tailwindcss"
                   then "tailwind" else stylingFramework conventions |}
        end
    end
  else Some conventions.

(** [extractConventions]: an exception in the first half skips the check
    for TypeScript, and the [catch] clause returns what was set so far,
    which is nothing. *)
Definition extractConventions (projectRoot : string) (fs : Fs.t) : ProjectConventions :=
  match readPackageConventions projectRoot fs with
  | Some conventions =>
      if Fs.existsSync (Fs.join [projectRoot; "tsconfig.json"]) fs
      then {| framework := framework conventions;
              language := "typescript";
              testingFramework := testingFramework conventions;
              stylingFramework := stylingFramework conventions |}
      else conventions
  | None => unknownConventions
  end.

(** [analyzeProject], called on an object whose project map is
    [thisProjectMap]. *)
Definition analyzeProject (thisProjectMap : option FullProjectMap)
    (projectRoot : string) (sh : Shell.t) (fs : Fs.t) : FullProjectMap :=
  {| core :=
       {| structure := mapStructure sh;
          patterns := detectPatterns sh;
          existingFeatures := catalogFeatures sh;
          testFramework := detectTestFramework projectRoot sh fs |};
     conventions := extractConventions projectRoot fs;
     conflicts := detectPotentialConflicts thisProjectMap |}.

(** The constructor: [analyzeProject] runs before the project map of the
    object is assigned. *)
Definition construct (projectRoot : string) (sh : Shell.t) (fs : Fs.t) : FullProjectMap :=
  analyzeProject None projectRoot sh fs.

End WithFiles.

End Analysis.

(** ** Further scenarios *)

Module Example.

Import ProjectIntelligence.

(** A project with default structure and patterns and the given features. *)
Definition projectWith (features : list string) : ProjectMap :=
  {| structure := emptyStructure;
     patterns := defaultPatterns;
     existingFeatures := features;
     testFramework := testFramework Scenario.emptyProject |}.

(** A project whose patterns are the ones detected on a machine. *)
Definition analysedPatterns (sh : Shell.t) : ProjectMap :=
  {| structure := emptyStructure;
     patterns := detectPatterns sh;
     existingFeatures := [];
     testFramework := testFramework Scenario.emptyProject |}.

(** The choice made by one block of [mapStructure]: a canonical path when
    the scan of the role finds more than one directory. *)
Definition picked (sh : Shell.t) (role preferred : string) : option string :=
  if (1 <? length (findDirectories sh role))%nat
  then selectCanonicalLocation (findDirectories sh role) preferred
  else None.

(** [p] was found by the scan of [role], which has a canonical location
    different from [p]. *)
Definition violation (sh : Shell.t) (role p : string) : Prop :=
  exists canonical,
    canonicalLocations (mapStructure sh) !! role = Some canonical
    /\ In p (findDirectories sh role)
    /\ p <> canonical.

(** Three feature specifications: an API feature, a hook, and a
    component whose name is not in PascalCase. *)
Definition apiUsers : TDDProtocol.FeatureSpec :=
  {| TDDProtocol.name := "Users";
     TDDProtocol.type := "api";
     TDDProtocol.description := "An example route";
     TDDProtocol.inputs := None;
     TDDProtocol.outputs := None;
     TDDProtocol.errorCases := None |}.

Definition hookLogin : TDDProtocol.FeatureSpec :=
  {| TDDProtocol.name := "Login";
     TDDProtocol.type := "hook";
     TDDProtocol.description := "An example hook";
     TDDProtocol.inputs := None;
     TDDProtocol.outputs := None;
     TDDProtocol.errorCases := None |}.

Definition lowerComponent : TDDProtocol.FeatureSpec :=
  {| TDDProtocol.name := "login-form";
     TDDProtocol.type := "component";
     TDDProtocol.description := "An example component";
     TDDProtocol.inputs := None;
     TDDProtocol.outputs := None;
     TDDProtocol.errorCases := None |}.

(** A parser that reads two texts and rejects every other one. *)
Definition parseTwoTexts (text : string) : option Json.t :=
  if String.eqb text "null" then Some Json.Null
  else if String.eqb text "{}" then Some (Json.Object [])
  else None.

(** A project directory with a TypeScript configuration and a package
    file that is not JSON. *)
Definition brokenPackage : Fs.t :=
  {| Fs.files := {["tsconfig.json" := "{}"; "package.json" := "{ name: "]};
     Fs.dirs := {["."]} |}.

(** A name without a slash. *)
Definition noSlash (s : string) : Prop :=
  Js.allChars (fun c => negb (Ascii.eqb c Analysis.slash)) s = true.

End Example.

(** * Properties *)

Import ProjectIntelligence.

(** ** Characters and strings *)

Section JsFacts.

Lemma between_spec lo hi c :
  Js.between lo hi c = true <-> lo <= nat_of_ascii c <= hi.
Proof.
  unfold Js.between. rewrite andb_true_iff, !Nat.leb_le. tauto.
Qed.

Lemma isUpper_not_isLower c : Js.isUpper c = true -> Js.isLower c = false.
Proof.
  intros Hu. apply between_spec in Hu.
  destruct (Js.isLower c) eqn:Hl; [|reflexivity].
  apply between_spec in Hl. lia.
Qed.

Lemma isLower_not_isUpper c : Js.isLower c = true -> Js.isUpper c = false.
Proof.
  intros Hl. destruct (Js.isUpper c) eqn:Hu; [|reflexivity].
  apply isUpper_not_isLower in Hu. congruence.
Qed.

Lemma isDigit_not_isUpper c : Js.isDigit c = true -> Js.isUpper c = false.
Proof.
  intros Hd. apply between_spec in Hd.
  destruct (Js.isUpper c) eqn:Hu; [|reflexivity].
  apply between_spec in Hu. lia.
Qed.

Lemma isKebabChar_not_isUpper c : Js.isKebabChar c = true -> Js.isUpper c = false.
Proof.
  unfold Js.isKebabChar. rewrite !orb_true_iff. intros [[H|H]|H].
  - by apply isLower_not_isUpper.
  - by apply isDigit_not_isUpper.
  - apply Ascii.eqb_eq in H. by subst c.
Qed.

Lemma upperChar_fixes_upper c : Js.isUpper c = true -> Js.upperChar c = c.
Proof. intros H. unfold Js.upperChar. by rewrite (isUpper_not_isLower c H). Qed.

Lemma lowerChar_fixes_non_upper c : Js.isUpper c = false -> Js.lowerChar c = c.
Proof. intros H. unfold Js.lowerChar. by rewrite H. Qed.

Lemma toLowerCase_fixes_kebab s :
  Js.allChars Js.isKebabChar s = true -> Js.toLowerCase s = s.
Proof.
  unfold Js.toLowerCase.
  induction s as [|c r IH]; simpl; [done|].
  rewrite andb_true_iff. intros [Hc Hr].
  by rewrite (lowerChar_fixes_non_upper c (isKebabChar_not_isUpper c Hc)), IH.
Qed.

Lemma hyphenateUpper_fixes_kebab s :
  Js.allChars Js.isKebabChar s = true -> hyphenateUpper s = s.
Proof.
  induction s as [|c r IH]; simpl; [done|].
  rewrite andb_true_iff. intros [Hc Hr].
  by rewrite (isKebabChar_not_isUpper c Hc), IH.
Qed.

Lemma isLower_isKebabChar c : Js.isLower c = true -> Js.isKebabChar c = true.
Proof. intros H. unfold Js.isKebabChar. by rewrite H. Qed.

Lemma isLower_not_hyphen c : Js.isLower c = true -> Ascii.eqb c Js.hyphen = false.
Proof.
  intros H. destruct (Ascii.eqb c Js.hyphen) eqn:E; [|done].
  apply Ascii.eqb_eq in E. by subst c.
Qed.

(** Appending on the right is injective. *)
Lemma length_append_string (a b : string) :
  String.length (a +:+ b) = String.length a + String.length b.
Proof. induction a as [|c a IH]; simpl; [done|]. by rewrite IH. Qed.

Lemma append_inj_l (a b s : string) : a +:+ s = b +:+ s -> a = b.
Proof.
  revert b. induction a as [|c a IH]; intros [|d b] E; simpl in E.
  - done.
  - apply (f_equal String.length) in E.
    rewrite !length_append_string in E. simpl in E. lia.
  - apply (f_equal String.length) in E.
    rewrite !length_append_string in E. simpl in E. lia.
  - injection E as -> E. f_equal. by apply IH.
Qed.

Lemma append_cons (x : ascii) (a b : string) : String x a +:+ b = String x (a +:+ b).
Proof. reflexivity. Qed.

Lemma append_assoc_string (a b c : string) : (a +:+ b) +:+ c = a +:+ b +:+ c.
Proof. induction a as [|x a IH]; [done|]. by rewrite !append_cons, IH. Qed.

Lemma append_empty_r (a : string) : a +:+ EmptyString = a.
Proof. induction a as [|x a IH]; [done|]. by rewrite append_cons, IH. Qed.

Lemma allChars_append p a b :
  Js.allChars p (a +:+ b) = Js.allChars p a && Js.allChars p b.
Proof.
  induction a as [|x a IH]; [done|]. rewrite append_cons. simpl.
  by rewrite IH, andb_assoc.
Qed.

Lemma split_nonempty sep s : Js.split sep s <> [].
Proof.
  destruct s as [|c r]; simpl; [done|].
  destruct (Ascii.eqb c sep); [done|]. by destruct (Js.split sep r).
Qed.

Lemma split_append_sep sep a b :
  Js.split sep (a +:+ String sep b) = Js.split sep a ++ Js.split sep b.
Proof.
  induction a as [|c a IH]; [simpl; by rewrite Ascii.eqb_refl|].
  rewrite append_cons. simpl.
  - destruct (Ascii.eqb c sep); [by rewrite IH|].
    rewrite IH. pose proof (split_nonempty sep a) as Hne.
    by destruct (Js.split sep a).
Qed.

Lemma split_without_sep sep s :
  Js.allChars (fun c => negb (Ascii.eqb c sep)) s = true -> Js.split sep s = [s].
Proof.
  induction s as [|c r IH]; simpl; [done|].
  rewrite andb_true_iff, negb_true_iff. intros [-> Hr]. by rewrite (IH Hr).
Qed.

Lemma last_split_after_sep sep a b :
  Js.allChars (fun c => negb (Ascii.eqb c sep)) b = true ->
  last (Js.split sep (a +:+ String sep b)) = Some b.
Proof.
  intros Hb. by rewrite split_append_sep, (split_without_sep sep b Hb), last_snoc.
Qed.

Lemma truthy_append_r a b : Js.truthy b = true -> Js.truthy (a +:+ b) = true.
Proof. intros Hb. destruct a; [done|]. by rewrite append_cons. Qed.

End JsFacts.

(** ** Naming: [matchesPattern] and [suggestCorrectNaming] *)

Lemma suggestCorrectNaming_PascalCase name :
  testPascal name = true -> suggestCorrectNaming name "PascalCase" = name.
Proof.
  destruct name as [|c r]; simpl; [done|].
  rewrite andb_true_iff. intros [Hc _].
  unfold suggestCorrectNaming, Js.toUpperCase.
  cbn [String.eqb Ascii.eqb Bool.eqb Js.charAt0 Js.slice1 Js.mapString String.append].
  by rewrite (upperChar_fixes_upper c Hc).
Qed.

Lemma suggestCorrectNaming_camelCase name :
  testCamel name = true -> suggestCorrectNaming name "camelCase" = name.
Proof.
  destruct name as [|c r]; simpl; [done|].
  rewrite andb_true_iff. intros [Hc _].
  unfold suggestCorrectNaming, Js.toLowerCase.
  cbn [String.eqb Ascii.eqb Bool.eqb Js.charAt0 Js.slice1 Js.mapString String.append].
  by rewrite (lowerChar_fixes_non_upper c (isLower_not_isUpper c Hc)).
Qed.

Lemma suggestCorrectNaming_kebab name :
  testKebab name = true -> suggestCorrectNaming name "kebab-case" = name.
Proof.
  destruct name as [|c r]; simpl; [done|].
  rewrite andb_true_iff. intros [Hc Hr].
  assert (Hall : Js.allChars Js.isKebabChar (String c r) = true).
  { simpl. by rewrite (isLower_isKebabChar c Hc), Hr. }
  unfold suggestCorrectNaming.
  replace ("kebab-case" =? "PascalCase")%string with false by reflexivity.
  replace ("kebab-case" =? "camelCase")%string with false by reflexivity.
  replace ("kebab-case" =? "kebab-case")%string with true by reflexivity.
  rewrite (toLowerCase_fixes_kebab _ Hall), (hyphenateUpper_fixes_kebab _ Hall).
  simpl. by rewrite (isLower_not_hyphen c Hc).
Qed.

Lemma suggestCorrectNaming_matching pattern name :
  matchesPattern name pattern = true -> suggestCorrectNaming name pattern = name.
Proof.
  unfold matchesPattern.
  destruct (String.eqb_spec pattern "PascalCase") as [->|HP].
  { apply suggestCorrectNaming_PascalCase. }
  destruct (String.eqb_spec pattern "camelCase") as [->|HC].
  { apply suggestCorrectNaming_camelCase. }
  destruct (String.eqb_spec pattern "kebab-case") as [->|HK].
  { apply suggestCorrectNaming_kebab. }
  intros _. unfold suggestCorrectNaming.
  apply String.eqb_neq in HP, HC, HK. by rewrite HP, HC, HK.
Qed.

(** C10.  [suggestCorrectNaming] leaves a name that already matches the
    convention unchanged, for each of PascalCase, camelCase and kebab-case;
    hence, whenever one application yields a name that matches the
    convention, a second application changes nothing. *)
Theorem suggestCorrectNaming_identity_on_conforming (P name : string) :
  In P Spec.conventions ->
  (matchesPattern name P = true -> suggestCorrectNaming name P = name)
  /\ (matchesPattern (suggestCorrectNaming name P) P = true ->
      suggestCorrectNaming (suggestCorrectNaming name P) P = suggestCorrectNaming name P).
Proof.
  intros _. split; intros H; by apply suggestCorrectNaming_matching.
Qed.

(** The theorem on two kebab-case inputs. *)
Lemma suggestCorrectNaming_identity_on_conforming_witness :
  In "kebab-case" Spec.conventions
  /\ suggestCorrectNaming "login-form" "kebab-case" = "login-form"
  /\ suggestCorrectNaming (suggestCorrectNaming "-loginForm" "kebab-case") "kebab-case"
     = suggestCorrectNaming "-loginForm" "kebab-case".
Proof.
  assert (Hin : In "kebab-case" Spec.conventions) by (simpl; tauto).
  split; [exact Hin|]. split.
  - apply (proj1 (suggestCorrectNaming_identity_on_conforming "kebab-case" "login-form" Hin)).
    reflexivity.
  - apply (proj2 (suggestCorrectNaming_identity_on_conforming "kebab-case" "-loginForm" Hin)).
    reflexivity.
Defined.

(** ** [validateNaming] *)

Lemma namingIssue_inj p q : namingIssue p = namingIssue q -> p = q.
Proof.
  unfold namingIssue. intros E.
  apply (inj (String.append _)) in E. by apply append_inj_l in E.
Qed.

Lemma namingIssue_not_conflictIssue p : namingIssue p <> conflictIssue.
Proof. unfold namingIssue, conflictIssue. simpl. discriminate. Qed.

(** C9.  In the result of [validateNaming] the flag [isValid] is true
    exactly when the list of issues is empty, and a naming-pattern issue
    at some position of [issues] has the suggestion computed for the same
    pattern at the same position of [suggestions]. *)
Theorem validateNaming_valid_iff_no_issue
    (pm : ProjectMap) (proposedName fileType : string) :
  let r := validateNaming pm proposedName fileType in
  (isValid r = true <-> issues r = [])
  /\ (forall (i : nat) (pattern : string),
         issues r !! i = Some (namingIssue pattern) ->
         suggestions r !! i = Some (namingSuggestion proposedName pattern))
  /\ length (issues r) = length (suggestions r).
Proof.
  unfold validateNaming.
  destruct (patternFor (patterns pm) fileType) as [pattern|];
    [destruct (Js.truthy pattern && negb (matchesPattern proposedName pattern))|];
    destruct (0 <? length (findSimilarFeatures pm proposedName))%nat;
    cbn -[namingIssue namingSuggestion conflictIssue];
    (split; [split; intros; done|]); (split; [|done]); intros i q Hi.
  all: destruct i as [|[|[|i]]];
    cbn -[namingIssue namingSuggestion conflictIssue] in Hi |- *; try done.
  all: try (assert (E : namingIssue pattern = namingIssue q) by congruence;
            apply namingIssue_inj in E; by subst q).
  all: exfalso; assert (E : namingIssue q = conflictIssue) by congruence;
    by apply namingIssue_not_conflictIssue in E.
Qed.

(** ** The duplicate detector: [selectCanonicalLocation] and [mapStructure] *)

Lemma includes_empty_sub s : Js.includes s EmptyString = true.
Proof. by destruct s. Qed.

Lemma empty_includes sub : Js.includes EmptyString sub = true -> sub = EmptyString.
Proof. by destruct sub. Qed.

Lemma find_first_match {A} (p : A -> bool) (l : list A) (x : A) :
  List.find p l = Some x ->
  exists before after,
    l = before ++ x :: after /\ p x = true /\ Forall (fun y => p y = false) before.
Proof.
  induction l as [|a l IH]; simpl; [done|].
  destruct (p a) eqn:Ha.
  - intros [= ->]. by exists [], l.
  - intros Hx. destruct (IH Hx) as (before & after & -> & Hp & Hall).
    exists (a :: before), after. repeat split; [done|]. by constructor.
Qed.

Lemma find_no_match {A} (p : A -> bool) (l : list A) :
  List.find p l = None -> Forall (fun y => p y = false) l.
Proof.
  induction l as [|a l IH]; simpl; [constructor|].
  destruct (p a) eqn:Ha; [done|]. intros Hx. constructor; auto.
Qed.

(** The detour of [||] through a falsy match changes nothing: an empty
    path can only match the empty preference, which the first path
    matches as well. *)
Lemma selectCanonicalLocation_unfold locations preferred :
  selectCanonicalLocation locations preferred =
  match List.find (fun loc => Js.includes loc preferred) locations with
  | Some canonical => Some canonical
  | None => head locations
  end.
Proof.
  unfold selectCanonicalLocation, Js.orElse, Js.find.
  destruct (List.find _ locations) as [c|] eqn:Hfind; [|done].
  destruct c as [|a c]; [|done]. simpl.
  destruct (find_first_match _ _ _ Hfind) as (before & after & -> & Hinc & Hbefore).
  apply empty_includes in Hinc. subst preferred.
  destruct before as [|b before]; [done|].
  apply Forall_cons in Hbefore as [Hb _]. by rewrite includes_empty_sub in Hb.
Qed.

Lemma selectCanonicalLocation_nonempty locations preferred :
  locations <> [] ->
  exists canonical,
    selectCanonicalLocation locations preferred = Some canonical
    /\ In canonical locations.
Proof.
  intros Hne. rewrite selectCanonicalLocation_unfold.
  destruct (List.find _ locations) as [c|] eqn:Hfind.
  - exists c. split; [done|]. by apply find_some in Hfind as [? _].
  - destruct locations as [|first rest]; [done|]. exists first. simpl. auto.
Qed.

Lemma filter_ne_In (canonical : string) (dirs : list string) (dir : string) :
  In dir (List.filter (fun d => negb (String.eqb d canonical)) dirs)
  <-> In dir dirs /\ dir <> canonical.
Proof.
  rewrite filter_In, negb_true_iff, String.eqb_neq. tauto.
Qed.

Lemma mapRole_selected sh role preferred acc :
  (1 < length (findDirectories sh role))%nat ->
  exists canonical,
    selectCanonicalLocation (findDirectories sh role) preferred = Some canonical
    /\ mapRole sh role preferred acc =
       {| canonicalLocations := <[role := canonical]> (canonicalLocations acc);
          forbiddenLocations :=
            forbiddenLocations acc
            ++ List.filter (fun dir => negb (String.eqb dir canonical))
                 (findDirectories sh role);
          duplicateStructures := duplicateStructures acc ++ findDirectories sh role |}.
Proof.
  intros Hlen. unfold mapRole.
  apply Nat.ltb_lt in Hlen as Hb. rewrite Hb.
  destruct (selectCanonicalLocation_nonempty (findDirectories sh role) preferred)
    as (c & Hc & _).
  { intros E. rewrite E in Hlen. simpl in Hlen. lia. }
  exists c. by rewrite Hc.
Qed.

Lemma mapRole_skipped sh role preferred acc :
  (length (findDirectories sh role) <= 1)%nat ->
  mapRole sh role preferred acc = acc.
Proof.
  intros Hlen. unfold mapRole.
  apply Nat.ltb_ge in Hlen. by rewrite Hlen.
Qed.

(** C1, as stated, fails: when no path contains the preferred substring
    the detector answers with the first path in scan order, which need not
    be the lexicographically-first one. *)
Lemma selectCanonicalLocation_not_lexicographic :
  let locations := ["./lib/components"; "./app/components"] in
  let preferred := "src/components" in
  forallb (fun loc => negb (Js.includes loc preferred)) locations = true
  /\ selectCanonicalLocation locations preferred = Some "./lib/components"
  /\ Spec.canonical locations preferred = Some "./app/components".
Proof. repeat split. Qed.

(** C1, amended.  On a non-empty list the detector selects the first path
    that contains the preferred substring and, when no path contains it,
    the first path of the list; when the scan of a role finds that list
    and it has more than one path, [mapStructure]'s block records the
    selected path as canonical and every path of the list different from
    it among the forbidden locations. *)
Theorem selectCanonicalLocation_first_match_else_first
    (locations : list string) (preferred : string) :
  locations <> [] ->
  exists canonical,
    selectCanonicalLocation locations preferred = Some canonical
    /\ ((exists before after,
            locations = before ++ canonical :: after
            /\ Js.includes canonical preferred = true
            /\ Forall (fun loc => Js.includes loc preferred = false) before)
        \/ (Forall (fun loc => Js.includes loc preferred = false) locations
            /\ head locations = Some canonical))
    /\ (forall sh role acc,
           findDirectories sh role = locations ->
           (1 < length locations)%nat ->
           let r := mapRole sh role preferred acc in
           canonicalLocations r !! role = Some canonical
           /\ forall loc,
                In loc locations -> loc <> canonical -> In loc (forbiddenLocations r)).
Proof.
  intros Hne.
  destruct (selectCanonicalLocation_nonempty locations preferred Hne) as (c & Hc & Hin).
  exists c. split; [done|]. split.
  - rewrite selectCanonicalLocation_unfold in Hc.
    destruct (List.find _ locations) as [c'|] eqn:Hfind.
    + injection Hc as ->. left. by apply find_first_match in Hfind.
    + right. split; [|done]. by apply find_no_match in Hfind.
  - intros sh role acc Hscan Hlen r. subst r.
    destruct (mapRole_selected sh role preferred acc) as (c' & Hc' & ->).
    { by rewrite Hscan. }
    rewrite Hscan in Hc'. assert (c' = c) as -> by congruence.
    cbn [canonicalLocations forbiddenLocations]. split.
    + apply lookup_insert_eq.
    + intros loc Hloc Hneq. apply in_or_app. right.
      rewrite Hscan. by apply filter_ne_In.
Qed.

(** The theorem on the three directories of the end-to-end scenario. *)
Lemma selectCanonicalLocation_first_match_else_first_witness :
  exists canonical,
    selectCanonicalLocation ["./components"; "./lib/components"; "./src/components"]
      "src/components" = Some canonical
    /\ canonicalLocations
         (mapRole Scenario.threeComponents "components" "src/components" emptyStructure)
         !! "components" = Some canonical.
Proof.
  destruct (selectCanonicalLocation_first_match_else_first
              ["./components"; "./lib/components"; "./src/components"]
              "src/components" ltac:(discriminate)) as (c & Hc & _ & Hrole).
  exists c. split; [exact Hc|].
  assert (Hscan : findDirectories Scenario.threeComponents "components"
                  = ["./components"; "./lib/components"; "./src/components"])
    by (vm_compute; reflexivity).
  assert (Hlen : (1 < length ["./components"; "./lib/components"; "./src/components"])%nat)
    by (simpl; lia).
  exact (proj1 (Hrole Scenario.threeComponents "components" emptyStructure Hscan Hlen)).
Defined.

(** The end-to-end scenario of the specification: [find] reports the
    three directories, the one under [src] is canonical and the two others
    are forbidden. *)
Example scenario_three_components :
  canonicalLocations (mapStructure Scenario.threeComponents) !! "components" = Some "./src/components"
  /\ forbiddenLocations (mapStructure Scenario.threeComponents) = ["./components"; "./lib/components"].
Proof. split; vm_compute; reflexivity. Qed.

(** C7.  The detector is a function of the scan result and of the
    preferred substring: two invocations on the same inputs agree on the
    canonical path and on the violations; and running [mapStructure]'s
    block a second time, on the state the first run left, records the same
    canonical path. *)
Theorem duplicate_detector_deterministic
    (sh : Shell.t) (role preferred : string) (acc : DirectoryStructure)
    (c1 c2 : option string) (r1 r2 : DirectoryStructure) :
  selectCanonicalLocation (findDirectories sh role) preferred = c1 ->
  selectCanonicalLocation (findDirectories sh role) preferred = c2 ->
  mapRole sh role preferred acc = r1 ->
  mapRole sh role preferred acc = r2 ->
  c1 = c2
  /\ canonicalLocations r1 !! role = canonicalLocations r2 !! role
  /\ forbiddenLocations r1 = forbiddenLocations r2
  /\ canonicalLocations (mapRole sh role preferred r1) !! role
     = canonicalLocations r1 !! role
  /\ ((1 < length (findDirectories sh role))%nat -> canonicalLocations r1 !! role = c1).
Proof.
  intros <- <- <- <-. repeat split.
  - destruct (Nat.lt_ge_cases 1 (length (findDirectories sh role))) as [Hlen|Hlen].
    + destruct (mapRole_selected sh role preferred acc Hlen) as (c & Hc & ->).
      destruct (mapRole_selected sh role preferred
                  {| canonicalLocations := <[role := c]> (canonicalLocations acc);
                     forbiddenLocations :=
                       forbiddenLocations acc
                       ++ List.filter (fun dir => negb (String.eqb dir c))
                            (findDirectories sh role);
                     duplicateStructures :=
                       duplicateStructures acc ++ findDirectories sh role |} Hlen)
        as (c' & Hc' & ->).
      assert (c' = c) as -> by congruence.
      cbn [canonicalLocations]. by rewrite !lookup_insert_eq.
    + by rewrite !(mapRole_skipped sh role preferred _ Hlen).
  - intros Hlen.
    destruct (mapRole_selected sh role preferred acc Hlen) as (c & Hc & ->).
    cbn [canonicalLocations]. by rewrite lookup_insert_eq.
Qed.

(** The theorem on the scan of the end-to-end scenario. *)
Lemma duplicate_detector_deterministic_witness :
  canonicalLocations (mapRole Scenario.threeComponents "components" "src/components" emptyStructure)
    !! "components"
  = Some "./src/components".
Proof.
  refine (let H := duplicate_detector_deterministic Scenario.threeComponents "components"
                     "src/components" emptyStructure _ _ _ _
                     eq_refl eq_refl eq_refl eq_refl in _).
  destruct H as (_ & _ & _ & _ & H).
  rewrite H; [vm_compute; reflexivity | vm_compute; lia].
Defined.

(** ** Lines of output *)

Lemma split_pieces sep s :
  Forall (fun piece => Js.allChars (fun c => negb (Ascii.eqb c sep)) piece = true)
         (Js.split sep s).
Proof.
  induction s as [|c r IH]; simpl.
  - by repeat constructor.
  - destruct (Ascii.eqb c sep) eqn:Hc.
    + by constructor.
    + destruct (Js.split sep r) as [|h t].
      * repeat constructor. simpl. by rewrite Hc.
      * apply Forall_cons in IH as [Hh Ht]. constructor; [|done].
        simpl. by rewrite Hc, Hh.
Qed.

Lemma lines_of_output out :
  Forall Scenario.lineOfOutput (Js.filterBoolean (Js.split Js.LF (Js.trim out))).
Proof.
  unfold Js.filterBoolean. apply Forall_forall. intros p Hp.
  apply list_elem_of_In, filter_In in Hp as [Hp Htruthy]. split; [done|].
  pose proof (split_pieces Js.LF (Js.trim out)) as Hall.
  rewrite Forall_forall in Hall. by apply Hall, list_elem_of_In.
Qed.

Lemma findDirectories_lines sh name : Forall Scenario.lineOfOutput (findDirectories sh name).
Proof.
  unfold findDirectories.
  destruct (sh (findDirectoriesCommand name)); [apply lines_of_output|constructor].
Qed.

(** ** The canonical map *)

Lemma selectCanonicalLocation_In locations preferred canonical :
  selectCanonicalLocation locations preferred = Some canonical -> In canonical locations.
Proof.
  rewrite selectCanonicalLocation_unfold.
  destruct (List.find _ locations) as [c|] eqn:Hfind.
  - intros [= <-]. by apply find_some in Hfind as [? _].
  - destruct locations; simpl; [done|]. intros [= <-]. auto.
Qed.

Lemma mapRole_lookup sh role preferred acc key canonical :
  canonicalLocations (mapRole sh role preferred acc) !! key = Some canonical ->
  (key = role /\ In canonical (findDirectories sh role))
  \/ canonicalLocations acc !! key = Some canonical.
Proof.
  destruct (Nat.lt_ge_cases 1 (length (findDirectories sh role))) as [Hlen|Hlen].
  - destruct (mapRole_selected sh role preferred acc Hlen) as (c & Hc & ->).
    cbn [canonicalLocations]. rewrite lookup_insert. case_decide as Hk.
    + intros [= <-]. left. split; [done|]. by apply selectCanonicalLocation_In in Hc.
    + auto.
  - rewrite (mapRole_skipped sh role preferred acc Hlen). auto.
Qed.

Lemma mapStructure_lookup sh role canonical :
  canonicalLocations (mapStructure sh) !! role = Some canonical ->
  In canonical (findDirectories sh role).
Proof.
  unfold mapStructure. intros H.
  apply mapRole_lookup in H as [[-> H]|H]; [done|].
  apply mapRole_lookup in H as [[-> H]|H]; [done|].
  apply mapRole_lookup in H as [[-> H]|H]; [done|].
  unfold emptyStructure in H. cbn [canonicalLocations] in H.
  by rewrite lookup_empty in H.
Qed.

Lemma orDefault_cases (a : option string) (d : string) :
  (exists s, a = Some s /\ Js.orDefault a d = s) \/ Js.orDefault a d = d.
Proof.
  destruct a as [s|]; simpl; [|by right].
  destruct (Js.truthy s); [left; by exists s | by right].
Qed.

Lemma picked_Some sh role preferred canonical :
  Example.picked sh role preferred = Some canonical ->
  (1 < length (findDirectories sh role))%nat /\ In canonical (findDirectories sh role).
Proof.
  unfold Example.picked. destruct (Nat.ltb_spec 1 (length (findDirectories sh role)));
    [|done].
  intros Hsel. split; [done|]. by apply selectCanonicalLocation_In in Hsel.
Qed.

Lemma picked_None sh role preferred :
  Example.picked sh role preferred = None ->
  (length (findDirectories sh role) <= 1)%nat.
Proof.
  unfold Example.picked. destruct (Nat.ltb_spec 1 (length (findDirectories sh role)));
    [|done].
  destruct (selectCanonicalLocation_nonempty (findDirectories sh role) preferred)
    as (c & -> & _); [|done].
  intros E. rewrite E in *. simpl in *. lia.
Qed.

Lemma mapRole_picked sh role preferred acc :
  mapRole sh role preferred acc =
  match Example.picked sh role preferred with
  | Some canonical =>
      {| canonicalLocations := <[role := canonical]> (canonicalLocations acc);
         forbiddenLocations :=
           forbiddenLocations acc
           ++ List.filter (fun dir => negb (String.eqb dir canonical))
                (findDirectories sh role);
         duplicateStructures := duplicateStructures acc ++ findDirectories sh role |}
  | None => acc
  end.
Proof.
  destruct (Example.picked sh role preferred) as [c|] eqn:Hp.
  - apply picked_Some in Hp as Hlen. destruct Hlen as [Hlen _].
    destruct (mapRole_selected sh role preferred acc Hlen) as (c' & Hc' & ->).
    unfold Example.picked in Hp. apply Nat.ltb_lt in Hlen. rewrite Hlen in Hp.
    by assert (c' = c) as -> by congruence.
  - apply picked_None in Hp. by apply mapRole_skipped.
Qed.

Ltac split_structure sh :=
  unfold Example.violation, mapStructure; rewrite !mapRole_picked;
  destruct (Example.picked sh "components" "src/components") as [c1|] eqn:H1;
  destruct (Example.picked sh "docs" "docs") as [c2|] eqn:H2;
  destruct (Example.picked sh "lib" "src/lib") as [c3|] eqn:H3;
  try (apply picked_Some in H1 as [_ H1]);
  try (apply picked_Some in H2 as [_ H2]);
  try (apply picked_Some in H3 as [_ H3]);
  cbn [canonicalLocations forbiddenLocations duplicateStructures emptyStructure].

Lemma mapStructure_lookup_role sh fileType role default :
  In (fileType, role, default) Scenario.locationRoles ->
  canonicalLocations (mapStructure sh) !! role = Example.picked sh role default.
Proof.
  intros Hin. simpl in Hin.
  destruct Hin as [ [= <- <- <-] | [ [= <- <- <-] | [ [= <- <- <-] | [] ] ] ];
    split_structure sh; by simplify_map_eq.
Qed.

Lemma suggestLocation_role sh pm fileType role default featureName :
  structure pm = mapStructure sh ->
  In (fileType, role, default) Scenario.locationRoles ->
  suggestLocation pm fileType featureName
  = Js.orDefault (canonicalLocations (mapStructure sh) !! role) default.
Proof.
  intros Hpm Hin. unfold suggestLocation. rewrite Hpm. simpl in Hin.
  by destruct Hin as [ [= <- <- <-] | [ [= <- <- <-] | [ [= <- <- <-] | [] ] ] ].
Qed.

(** C8, as stated, fails: the scan of components finds one directory, so
    the list is not empty; [mapStructure] makes no entry for it and
    [suggestLocation] answers with the default, which is not in the
    list. *)
Lemma canonical_default_outside_single_scan :
  findDirectories Scenario.oneComponent "components" = ["./app/components"]
  /\ canonicalLocations (mapStructure Scenario.oneComponent) !! "components" = None
  /\ suggestLocation Scenario.oneComponentProject "component" "LoginForm" = "src/components"
  /\ existsb (String.eqb "src/components")
       (findDirectories Scenario.oneComponent "components") = false.
Proof. repeat split; vm_compute; reflexivity. Qed.

(** C8, amended.  [selectCanonicalLocation] answers with an element of
    every non-empty list, and every entry that [mapStructure] makes in the
    canonical map is an element of the scan list of its role.  For a role
    whose scan finds more than one path, the entry is the path that
    [selectCanonicalLocation] selects from the scan list, and
    [suggestLocation] answers with it; for a role whose scan finds at most
    one path, none or a single one, there is no entry and [suggestLocation]
    answers with the default. *)
Theorem canonical_location_in_scan_list :
  (forall locations preferred,
      locations <> [] ->
      exists canonical,
        selectCanonicalLocation locations preferred = Some canonical
        /\ In canonical locations)
  /\ (forall sh role canonical,
         canonicalLocations (mapStructure sh) !! role = Some canonical ->
         In canonical (findDirectories sh role))
  /\ (forall sh pm fileType role default featureName,
         structure pm = mapStructure sh ->
         In (fileType, role, default) Scenario.locationRoles ->
         ((1 < length (findDirectories sh role))%nat ->
          selectCanonicalLocation (findDirectories sh role) default
          = Some (suggestLocation pm fileType featureName)
          /\ canonicalLocations (mapStructure sh) !! role
             = Some (suggestLocation pm fileType featureName)
          /\ In (suggestLocation pm fileType featureName) (findDirectories sh role))
         /\ ((length (findDirectories sh role) <= 1)%nat ->
             canonicalLocations (mapStructure sh) !! role = None
             /\ suggestLocation pm fileType featureName = default)).
Proof.
  split; [exact selectCanonicalLocation_nonempty|].
  split; [exact mapStructure_lookup|].
  intros sh pm fileType role default featureName Hpm Hin.
  rewrite (suggestLocation_role sh pm fileType role default featureName Hpm Hin).
  rewrite (mapStructure_lookup_role sh fileType role default Hin).
  unfold Example.picked. split; intros Hlen.
  - apply Nat.ltb_lt in Hlen as Hb. rewrite Hb.
    destruct (selectCanonicalLocation_nonempty (findDirectories sh role) default)
      as (c & Hc & Hc_in).
    { intros E. rewrite E in Hlen. simpl in Hlen. lia. }
    rewrite Hc.
    assert (Htruthy : Js.truthy c = true).
    { pose proof (findDirectories_lines sh role) as Hlines.
      rewrite Forall_forall in Hlines.
      by destruct (Hlines c (proj2 (list_elem_of_In _ _) Hc_in)). }
    unfold Js.orDefault. by rewrite Htruthy.
  - apply Nat.ltb_ge in Hlen. by rewrite Hlen.
Qed.

(** The third part of the theorem on the end-to-end scenario. *)
Lemma canonical_location_in_scan_list_witness :
  In (suggestLocation Scenario.threeComponentsProject "component" "LoginForm")
     (findDirectories Scenario.threeComponents "components").
Proof.
  assert (Hin : In ("component", "components", "src/components") Scenario.locationRoles)
    by (simpl; tauto).
  assert (Hlen : (1 < length (findDirectories Scenario.threeComponents "components"))%nat)
    by (vm_compute; lia).
  exact (proj2 (proj2 (proj1 (proj2 (proj2 canonical_location_in_scan_list)
                                Scenario.threeComponents Scenario.threeComponentsProject
                                "component" "components" "src/components" "LoginForm"
                                eq_refl Hin) Hlen))).
Defined.

(** ** The naming inferencer *)

(** C2, as stated, fails: on a list of kebab-case filenames the count of
    kebab-case matches is the highest, and the code answers camelCase. *)
Lemma detectNamingPattern_never_kebab :
  let files := ["user-card"; "nav-bar"] in
  forallb testKebab files = true
  /\ Spec.matchCount "PascalCase" files = 0
  /\ Spec.matchCount "camelCase" files = 0
  /\ Spec.matchCount "kebab-case" files = 2
  /\ Spec.inferConvention files = "kebab-case"
  /\ detectNamingPattern files = "camelCase".
Proof. repeat split. Qed.

(** C2, amended.  The inferencer tests one regex, an upper-case letter
    directly followed by a lower-case letter: it answers PascalCase when
    strictly more than half of the filenames match it and camelCase
    otherwise; it never answers kebab-case. *)
Theorem detectNamingPattern_majority (files : list string) :
  let pascalCaseCount := length (List.filter testUpperLower files) in
  (detectNamingPattern files = "PascalCase" <-> length files < 2 * pascalCaseCount)
  /\ (detectNamingPattern files = "camelCase" <-> 2 * pascalCaseCount <= length files)
  /\ detectNamingPattern files <> "kebab-case".
Proof.
  unfold detectNamingPattern.
  destruct (Nat.ltb_spec (length files) (2 * length (List.filter testUpperLower files)))
    as [Hlt|Hge]; cbn zeta; repeat split; intros; try done; try lia.
Qed.

Lemma detectPatterns_components sh :
  components (detectPatterns sh)
  = if (0 <? length (findFiles sh "*.tsx" (Some "components")))%nat
    then detectNamingPattern (findFiles sh "*.tsx" (Some "components"))
    else components defaultPatterns.
Proof.
  unfold detectPatterns.
  by destruct (0 <? length (findFiles sh "*.tsx" (Some "components")))%nat;
    destruct (0 <? length (findFiles sh "*.test.*" None))%nat.
Qed.

(** C6.  The convention that [detectPatterns] infers for components is
    PascalCase when the scan of component files finds [Foo.tsx, Bar.tsx,
    Baz.tsx], camelCase when it finds [foo.ts, barBaz.ts], and the default,
    PascalCase, when it finds nothing; on the two lists
    [detectNamingPattern] itself gives these answers. *)
Theorem detectNamingPattern_examples :
  detectNamingPattern ["Foo.tsx"; "Bar.tsx"; "Baz.tsx"] = "PascalCase"
  /\ detectNamingPattern ["foo.ts"; "barBaz.ts"] = "camelCase"
  /\ (forall sh,
         findFiles sh "*.tsx" (Some "components") = ["Foo.tsx"; "Bar.tsx"; "Baz.tsx"] ->
         components (detectPatterns sh) = "PascalCase")
  /\ (forall sh,
         findFiles sh "*.tsx" (Some "components") = ["foo.ts"; "barBaz.ts"] ->
         components (detectPatterns sh) = "camelCase")
  /\ (forall sh,
         findFiles sh "*.tsx" (Some "components") = [] ->
         components (detectPatterns sh) = components defaultPatterns)
  /\ components defaultPatterns = "PascalCase".
Proof.
  repeat split; intros sh Hscan; rewrite detectPatterns_components, Hscan; reflexivity.
Qed.

(** The theorem on three machines: one for each scan. *)
Lemma detectNamingPattern_examples_witness :
  components (detectPatterns Scenario.pascalFiles) = "PascalCase"
  /\ components (detectPatterns Scenario.camelFiles) = "camelCase"
  /\ components (detectPatterns Scenario.missingRoot) = components defaultPatterns.
Proof.
  destruct detectNamingPattern_examples as (_ & _ & Hpascal & Hcamel & Hempty & _).
  split; [|split].
  - apply Hpascal. vm_compute. reflexivity.
  - apply Hcamel. vm_compute. reflexivity.
  - apply Hempty. vm_compute. reflexivity.
Defined.

(** ** The directory scanner *)

(** C5, as stated, fails: when the command line fails, as it does for a
    root that does not exist, the scanner returns the empty list. *)
Lemma findDirectories_missing_root_empty :
  Scenario.missingRoot (findDirectoriesCommand "components") = Shell.Throws 1
  /\ findDirectories Scenario.missingRoot "components" = []
  /\ findFiles Scenario.missingRoot "*.tsx" (Some "components") = [].
Proof. repeat split. Qed.

Lemma trimStart_length s : String.length (Js.trimStart s) <= String.length s.
Proof.
  induction s as [|c r IH]; simpl; [done|]. destruct (Js.isSpace c); simpl; lia.
Qed.

Lemma trimStart_clean line rest :
  Js.truthy line = true -> Js.trimStart line = line ->
  Js.trimStart (line +:+ rest) = line +:+ rest.
Proof.
  destruct line as [|c r]; [done|]. intros _ Hclean. rewrite append_cons.
  simpl in *. destruct (Js.isSpace c); [|done].
  pose proof (trimStart_length r) as Hlen. rewrite Hclean in Hlen. simpl in Hlen. lia.
Qed.

Lemma trimEnd_append_LF s : Js.trimEnd (s +:+ String Js.LF EmptyString) = Js.trimEnd s.
Proof.
  induction s as [|c r IH]; [done|]. rewrite append_cons. simpl. by rewrite IH.
Qed.

Lemma trimEnd_cons c b :
  Js.truthy (Js.trimEnd b) = true -> Js.trimEnd (String c b) = String c (Js.trimEnd b).
Proof. intros Hb. simpl. by destruct (Js.trimEnd b). Qed.

Lemma trimEnd_append a b :
  Js.truthy (Js.trimEnd b) = true -> Js.trimEnd (a +:+ b) = a +:+ Js.trimEnd b.
Proof.
  intros Hb. induction a as [|c a IH]; [done|].
  rewrite !append_cons, trimEnd_cons; [by rewrite IH|].
  rewrite IH. by apply truthy_append_r.
Qed.

Lemma trimEnd_unlines lines :
  lines <> [] -> Forall Scenario.cleanLine lines ->
  Js.truthy (Js.trimEnd (Shell.unlines lines)) = true
  /\ Js.split Js.LF (Js.trimEnd (Shell.unlines lines)) = lines.
Proof.
  induction lines as [|line rest IH]; [done|]. intros _ Hall.
  apply Forall_cons in Hall as [(Htruthy & Hlf & _ & Hend) Hrest].
  destruct rest as [|line2 rest].
  - cbn [Shell.unlines]. rewrite trimEnd_append_LF, Hend. split; [done|].
    by apply split_without_sep.
  - destruct (IH ltac:(done) Hrest) as [Hne Hsplit].
    change (Shell.unlines (line :: line2 :: rest))
      with (line +:+ String Js.LF (Shell.unlines (line2 :: rest))).
    rewrite trimEnd_append by (by rewrite trimEnd_cons).
    rewrite trimEnd_cons by done. split.
    + by apply truthy_append_r.
    + by rewrite split_append_sep, (split_without_sep _ _ Hlf), Hsplit.
Qed.

Lemma filterBoolean_clean lines :
  Forall Scenario.cleanLine lines -> Js.filterBoolean lines = lines.
Proof.
  unfold Js.filterBoolean. induction 1 as [|line rest (Htruthy & _) _ IH]; [done|].
  simpl. by rewrite Htruthy, IH.
Qed.

(** What the scanners make of the output of the pipeline. *)
Lemma scan_of_pipeline excluded run :
  Forall Scenario.cleanLine (Shell.printed run) ->
  match Shell.pipeToGrep excluded run with
  | Shell.Stdout result => Js.filterBoolean (Js.split Js.LF (Js.trim result))
  | Shell.Throws _ => []
  end
  = List.filter (fun line => negb (Js.includes line excluded)) (Shell.printed run).
Proof.
  intros Hall. unfold Shell.pipeToGrep.
  assert (Hsel : Forall Scenario.cleanLine
                   (List.filter (fun line => negb (Js.includes line excluded))
                      (Shell.printed run))).
  { apply Forall_forall. intros line Hin. rewrite Forall_forall in Hall.
    apply Hall. apply list_elem_of_In in Hin. apply filter_In in Hin as [Hin _].
    by apply list_elem_of_In. }
  destruct (List.filter _ (Shell.printed run)) as [|line rest] eqn:E; [done|].
  unfold Js.trim. pose proof Hsel as Hfirst.
  apply Forall_cons in Hfirst as [(Htruthy & _ & Hstart & _) _].
  change (Shell.unlines (line :: rest))
    with (line +:+ String Js.LF (Shell.unlines rest)).
  rewrite (trimStart_clean line _ Htruthy Hstart).
  change (line +:+ String Js.LF (Shell.unlines rest))
    with (Shell.unlines (line :: rest)).
  destruct (trimEnd_unlines (line :: rest) ltac:(done) Hsel) as [_ ->].
  by apply filterBoolean_clean.
Qed.

(** C5, amended.  The scanners have no failure: when the command line
    exits with an error each of [findDirectories] and [findFiles] returns
    the empty list, and otherwise the non-empty lines of the trimmed
    output.  The exit status of [find] is not read: of a run that prints
    its matches and reports an unreadable directory, the scanners return
    the printed matches outside [node_modules]; they return the empty list
    when no line is left, as for a root that does not exist. *)
Theorem findDirectories_total (sh : Shell.t) (name : string) :
  (forall status,
      sh (findDirectoriesCommand name) = Shell.Throws status ->
      findDirectories sh name = [])
  /\ (forall out,
         sh (findDirectoriesCommand name) = Shell.Stdout out ->
         findDirectories sh name = Js.filterBoolean (Js.split Js.LF (Js.trim out)))
  /\ Forall Scenario.lineOfOutput (findDirectories sh name)
  /\ (forall pattern directory status,
         sh (findFilesCommand pattern directory) = Shell.Throws status ->
         findFiles sh pattern directory = [])
  /\ (forall pattern directory out,
         sh (findFilesCommand pattern directory) = Shell.Stdout out ->
         findFiles sh pattern directory
         = Js.filterBoolean (Js.split Js.LF (Js.trim out)))
  /\ (forall pattern directory, Forall Scenario.lineOfOutput (findFiles sh pattern directory))
  /\ (forall run,
         sh (findDirectoriesCommand name) = Shell.pipeToGrep "node_modules" run ->
         Forall Scenario.cleanLine (Shell.printed run) ->
         findDirectories sh name
         = List.filter (fun line => negb (Js.includes line "node_modules"))
             (Shell.printed run))
  /\ (forall pattern directory run,
         sh (findFilesCommand pattern directory) = Shell.pipeToGrep "node_modules" run ->
         Forall Scenario.cleanLine (Shell.printed run) ->
         findFiles sh pattern directory
         = List.filter (fun line => negb (Js.includes line "node_modules"))
             (Shell.printed run)).
Proof.
  unfold findDirectories, findFiles. repeat split.
  - by intros status ->.
  - by intros out ->.
  - destruct (sh (findDirectoriesCommand name)); [apply lines_of_output|constructor].
  - by intros pattern directory status ->.
  - by intros pattern directory out ->.
  - intros pattern directory.
    destruct (sh (findFilesCommand pattern directory)); [apply lines_of_output|constructor].
  - intros run -> Hclean. by apply scan_of_pipeline.
  - intros pattern directory run -> Hclean. by apply scan_of_pipeline.
Qed.

(** The theorem on a machine whose root is missing, and on a run of
    [find] that exits with status 1 for an unreadable subdirectory. *)
Lemma findDirectories_total_witness :
  findDirectories Scenario.missingRoot "components" = []
  /\ Shell.exitStatus Scenario.unreadableSubdirectory = 1
  /\ findDirectories (Scenario.running Scenario.unreadableSubdirectory) "components"
     = ["./src/components"; "./components"].
Proof.
  split; [|split; [reflexivity|]].
  - exact (proj1 (findDirectories_total Scenario.missingRoot "components") 1 eq_refl).
  - assert (Hclean : Forall Scenario.cleanLine
                       (Shell.printed Scenario.unreadableSubdirectory))
      by (repeat constructor).
    exact (proj1 (proj2 (proj2 (proj2 (proj2 (proj2 (proj2
             (findDirectories_total (Scenario.running Scenario.unreadableSubdirectory)
                "components")))))))
             Scenario.unreadableSubdirectory eq_refl Hclean).
Defined.

(** ** The template emitter *)

Import TDDProtocol.

Section FsFacts.
Context `{Fs.Path}.

Lemma extends_refl fs : Fs.extends fs fs.
Proof. by split. Qed.

Lemma extends_trans fs1 fs2 fs3 : Fs.extends fs1 fs2 -> Fs.extends fs2 fs3 -> Fs.extends fs1 fs3.
Proof. intros [F1 D1] [F2 D2]. split; [auto|set_solver]. Qed.

Lemma existsSync_true p fs :
  Fs.existsSync p fs = true <-> is_Some (Fs.files fs !! p) \/ p ∈ Fs.dirs fs.
Proof.
  unfold Fs.existsSync. by rewrite orb_true_iff, !bool_decide_eq_true.
Qed.

Lemma existsSync_extends p fs fs' :
  Fs.extends fs fs' -> Fs.existsSync p fs = true -> Fs.existsSync p fs' = true.
Proof.
  intros [HF HD]. rewrite !existsSync_true. intros [Hf|Hd]; [left; auto|right; set_solver].
Qed.



(** *** [writeFileSync] *)


Lemma writeFileSync_Threw p content fs fs' e :
  Fs.writeFileSync p content fs = (fs', Fs.Threw e) -> fs' = fs.
Proof.
  unfold Fs.writeFileSync. cbv zeta. repeat destruct (_ : bool); by intros [= <-].
Qed.

(** Whatever its outcome, a write leaves every other path alone and
    removes nothing. *)
Lemma writeFileSync_frame p content fs :
  Fs.extends fs (Fs.writeFileSync p content fs).1
  /\ Fs.dirs (Fs.writeFileSync p content fs).1 = Fs.dirs fs
  /\ forall q, q <> p ->
       Fs.files (Fs.writeFileSync p content fs).1 !! q = Fs.files fs !! q.
Proof.
  unfold Fs.writeFileSync, Fs.extends. cbv zeta. repeat destruct (_ : bool); simpl;
    repeat split; try done.
  - intros q Hq. rewrite lookup_insert. by case_decide.
  - intros q Hq. by rewrite lookup_insert_ne.
Qed.

(** *** [mkdirSync] and [ensureDirectoryExists] *)



Lemma mkdirSync_frame p fs :
  Fs.extends fs (Fs.mkdirSync p fs).1 /\ Fs.files (Fs.mkdirSync p fs).1 = Fs.files fs.
Proof.
  unfold Fs.mkdirSync. repeat destruct (_ : bool); simpl; repeat split; try done.
  set_solver.
Qed.




Lemma ensureDirectoryExists_frame d fs :
  Fs.extends fs (ensureDirectoryExists d fs).1
  /\ Fs.files (ensureDirectoryExists d fs).1 = Fs.files fs.
Proof.
  unfold ensureDirectoryExists. destruct (Fs.existsSync d fs); simpl;
    [split; [apply extends_refl|done]|apply mkdirSync_frame].
Qed.

(** *** A directory made sure of, then a file written in it *)





Lemma ensure_write_frame p content fs :
  let fs' :=
    (Fs.andThen (ensureDirectoryExists (Fs.dirname p) fs) (Fs.writeFileSync p content)).1 in
  Fs.extends fs fs'
  /\ forall q, q <> p -> Fs.files fs' !! q = Fs.files fs !! q.
Proof.
  intros fs'. subst fs'.
  destruct (ensureDirectoryExists_frame (Fs.dirname p) fs) as [Hext Hfiles].
  destruct (ensureDirectoryExists (Fs.dirname p) fs) as [fs1 [|e]]; simpl in *;
    [|split; [done|intros q _; by rewrite Hfiles]].
  destruct (writeFileSync_frame p content fs1) as (Hext' & _ & Hframe).
  split; [by eapply extends_trans|]. intros q Hq. by rewrite Hframe, Hfiles.
Qed.

(** *** The write steps *)





Lemma writeSteps_frame this spec fs :
  Fs.extends fs (writeSteps this spec fs).1
  /\ forall q,
       q <> getTestPath this spec -> q <> getImplementationPath this spec ->
       Fs.files (writeSteps this spec fs).1 !! q = Fs.files fs !! q.
Proof.
  unfold writeSteps, createFailingTest, createMinimalImplementation,
    addSelfHealingMechanisms.
  destruct (ensure_write_frame (getTestPath this spec) (generateTestContent spec) fs)
    as [Hext1 Hframe1].
  destruct (Fs.andThen (ensureDirectoryExists _ fs) _) as [fs1 [|e]];
    cbn [Fs.andThen fst] in *; [|split; [done|intros q Hq _; by apply Hframe1]].
  destruct (ensure_write_frame (getImplementationPath this spec)
              (generateMinimalImplementation spec) fs1) as [Hext2 Hframe2].
  destruct (Fs.andThen (ensureDirectoryExists _ fs1) _) as [fs2 [|e]];
    cbn [Fs.andThen fst] in *.
  - destruct (writeFileSync_frame (getImplementationPath this spec)
                (generateSelfHealingImplementation spec) fs2) as (Hext3 & _ & Hframe3).
    split; [eauto using extends_trans|].
    intros q Hqt Hqi. by rewrite Hframe3, Hframe2, Hframe1.
  - split; [eauto using extends_trans|].
    intros q Hqt Hqi. by rewrite Hframe2, Hframe1.
Qed.

End FsFacts.

Section Emitter.
Context `{Fs.Path}.

Lemma createFeature_unfold this spec fs :
  createFeature this spec fs =
  if isDuplicate (preventDuplication (intelligence this) (name spec))
     || negb (isValid (validateNaming (intelligence this) (name spec) (type spec)))
  then (fs, Fs.Returned)
  else writeSteps this spec fs.
Proof.
  unfold createFeature, writeSteps.
  destruct (isDuplicate _); [done|]. by destruct (isValid _).
Qed.



End Emitter.



(** The file system does fail, with errors of its own: a regular file
    where the test directory should be stops [createFeature] before
    anything is written. *)
Example createFeature_file_as_directory :
  @createFeature Fs.plainPath Scenario.protocol Scenario.componentX
    Scenario.fileAtTestDirectory
  = (Scenario.fileAtTestDirectory, Fs.Threw Fs.ENOTDIR).
Proof. vm_compute. reflexivity. Qed.


(** A kind outside the four is no reason to write either: the kind
    [components] is the key of a pattern, and a name that is not in
    PascalCase stops [createFeature] at its naming check. *)
Example unrecognised_kind_stopped_by_naming_check :
  let this := Scenario.protocol in
  let spec := Scenario.componentsLoginForm in
  forallb (fun kind => negb (String.eqb (type spec) kind)) Spec.kinds = true
  /\ isDuplicate (preventDuplication (intelligence this) (name spec)) = false
  /\ isValid (validateNaming (intelligence this) (name spec) (type spec)) = false
  /\ @createFeature Fs.plainPath this spec Fs.empty = (Fs.empty, Fs.Returned).
Proof.
  cbv zeta. repeat split; vm_compute; reflexivity.
Qed.


(** * Further properties *)

(** ** Case maps and conventions *)

Lemma nat_of_ascii_of_nat_small n : n < 256 -> nat_of_ascii (ascii_of_nat n) = n.
Proof. apply nat_ascii_embedding. Qed.

Lemma upperChar_of_lower c :
  Js.isLower c = true ->
  Js.isUpper (Js.upperChar c) = true /\ Js.lowerChar (Js.upperChar c) = c.
Proof.
  intros Hl. pose proof Hl as Hr. apply between_spec in Hr.
  assert (Hcode : nat_of_ascii (Js.upperChar c) = nat_of_ascii c - 32).
  { unfold Js.upperChar. rewrite Hl. apply nat_of_ascii_of_nat_small. lia. }
  assert (Hu : Js.isUpper (Js.upperChar c) = true).
  { apply between_spec. lia. }
  split; [done|].
  unfold Js.lowerChar. rewrite Hu, Hcode.
  replace (nat_of_ascii c - 32 + 32) with (nat_of_ascii c) by lia.
  apply ascii_nat_embedding.
Qed.

Lemma lowerChar_of_upper c :
  Js.isUpper c = true ->
  Js.isLower (Js.lowerChar c) = true /\ Js.upperChar (Js.lowerChar c) = c.
Proof.
  intros Hu. pose proof Hu as Hr. apply between_spec in Hr.
  assert (Hcode : nat_of_ascii (Js.lowerChar c) = nat_of_ascii c + 32).
  { unfold Js.lowerChar. rewrite Hu. apply nat_of_ascii_of_nat_small. lia. }
  assert (Hl : Js.isLower (Js.lowerChar c) = true).
  { apply between_spec. lia. }
  split; [done|].
  unfold Js.upperChar. rewrite Hl, Hcode.
  replace (nat_of_ascii c + 32 - 32) with (nat_of_ascii c) by lia.
  apply ascii_nat_embedding.
Qed.

Lemma lowerChar_not_upper c : Js.isUpper (Js.lowerChar c) = false.
Proof.
  destruct (Js.isUpper c) eqn:Hu.
  - apply isLower_not_isUpper. by apply lowerChar_of_upper.
  - by rewrite lowerChar_fixes_non_upper.
Qed.

Lemma hyphenateUpper_toLowerCase s :
  hyphenateUpper (Js.toLowerCase s) = Js.toLowerCase s.
Proof.
  unfold Js.toLowerCase. induction s as [|c r IH]; simpl; [done|].
  by rewrite lowerChar_not_upper, IH.
Qed.

Lemma lowerChar_alnum_kebab c : Js.isAlnum c = true -> Js.isKebabChar (Js.lowerChar c) = true.
Proof.
  unfold Js.isAlnum. intros H. apply orb_true_iff in H as [H|Hd];
    [apply orb_true_iff in H as [Hl|Hu]|]; unfold Js.isKebabChar.
  - rewrite (lowerChar_fixes_non_upper c (isLower_not_isUpper c Hl)). by rewrite Hl.
  - by destruct (lowerChar_of_upper c Hu) as [-> _].
  - rewrite (lowerChar_fixes_non_upper c (isDigit_not_isUpper c Hd)), Hd.
    by rewrite orb_true_r.
Qed.

Lemma toLowerCase_alnum_kebab s :
  Js.allChars Js.isAlnum s = true ->
  Js.allChars Js.isKebabChar (Js.toLowerCase s) = true.
Proof.
  unfold Js.toLowerCase. induction s as [|c r IH]; simpl; [done|].
  rewrite !andb_true_iff. intros [Hc Hr]. split; [by apply lowerChar_alnum_kebab|auto].
Qed.

Lemma suggestCorrectNaming_kebab_unfold name :
  suggestCorrectNaming name "kebab-case" = dropLeadingHyphen (Js.toLowerCase name).
Proof.
  unfold suggestCorrectNaming.
  replace ("kebab-case" =? "PascalCase")%string with false by reflexivity.
  replace ("kebab-case" =? "camelCase")%string with false by reflexivity.
  replace ("kebab-case" =? "kebab-case")%string with true by reflexivity.
  by rewrite hyphenateUpper_toLowerCase.
Qed.

(** X1.  The kebab-case suggestion is the lower-cased name without one
    leading hyphen: lower-casing runs first, so no hyphen is ever
    inserted in front of a capital.  For a camelCase or PascalCase name
    the suggestion is the lower-cased name, which matches kebab-case with
    its words run together. *)
Theorem suggestCorrectNaming_kebab_fuses_words (name : string) :
  suggestCorrectNaming name "kebab-case" = dropLeadingHyphen (Js.toLowerCase name)
  /\ (testCamel name = true \/ testPascal name = true ->
      suggestCorrectNaming name "kebab-case" = Js.toLowerCase name
      /\ matchesPattern (suggestCorrectNaming name "kebab-case") "kebab-case" = true).
Proof.
  split; [apply suggestCorrectNaming_kebab_unfold|].
  intros Hname. rewrite suggestCorrectNaming_kebab_unfold.
  destruct name as [|c r]; [by destruct Hname|].
  assert (Hfirst : Js.isLower (Js.lowerChar c) = true /\ Js.allChars Js.isAlnum r = true).
  { destruct Hname as [Hn|Hn]; simpl in Hn; apply andb_true_iff in Hn as [Hc Hr].
    - by rewrite (lowerChar_fixes_non_upper c (isLower_not_isUpper c Hc)).
    - split; [|done]. by apply lowerChar_of_upper. }
  destruct Hfirst as [Hc Hr].
  unfold Js.toLowerCase. cbn [Js.mapString dropLeadingHyphen].
  rewrite (isLower_not_hyphen _ Hc). split; [done|].
  unfold matchesPattern.
  replace ("kebab-case" =? "PascalCase")%string with false by reflexivity.
  replace ("kebab-case" =? "camelCase")%string with false by reflexivity.
  replace ("kebab-case" =? "kebab-case")%string with true by reflexivity.
  cbn [testKebab]. rewrite Hc. by apply toLowerCase_alnum_kebab.
Qed.

(** The theorem on a PascalCase name. *)
Lemma suggestCorrectNaming_kebab_fuses_words_witness :
  suggestCorrectNaming "LoginForm" "kebab-case" = Js.toLowerCase "LoginForm".
Proof.
  refine (proj1 (proj2 (suggestCorrectNaming_kebab_fuses_words "LoginForm") _)).
  right. reflexivity.
Defined.

(** X2.  The PascalCase and camelCase suggestions convert between the
    two conventions and undo each other: the PascalCase suggestion for a
    camelCase name matches PascalCase, and the camelCase suggestion for
    it gives the name back; the same holds the other way round. *)
Theorem suggestCorrectNaming_pascal_camel_round_trip (name : string) :
  (matchesPattern name "camelCase" = true ->
   matchesPattern (suggestCorrectNaming name "PascalCase") "PascalCase" = true
   /\ suggestCorrectNaming (suggestCorrectNaming name "PascalCase") "camelCase" = name)
  /\ (matchesPattern name "PascalCase" = true ->
      matchesPattern (suggestCorrectNaming name "camelCase") "camelCase" = true
      /\ suggestCorrectNaming (suggestCorrectNaming name "camelCase") "PascalCase" = name).
Proof.
  split; intros Hn; destruct name as [|c r]; try discriminate Hn;
    unfold matchesPattern in Hn; cbn [String.eqb Ascii.eqb Bool.eqb] in Hn;
    simpl in Hn; apply andb_true_iff in Hn as [Hc Hr].
  - destruct (upperChar_of_lower c Hc) as [Hu Hback].
    unfold suggestCorrectNaming, matchesPattern, Js.toUpperCase, Js.toLowerCase.
    cbn -[Js.upperChar Js.lowerChar Js.isUpper Js.isLower Js.allChars].
    change (String (Js.upperChar c) "" +:+ r) with (String (Js.upperChar c) r).
    cbn -[Js.upperChar Js.lowerChar Js.isUpper Js.isLower Js.allChars].
    by rewrite Hu, Hr, Hback.
  - destruct (lowerChar_of_upper c Hc) as [Hl Hback].
    unfold suggestCorrectNaming, matchesPattern, Js.toUpperCase, Js.toLowerCase.
    cbn -[Js.upperChar Js.lowerChar Js.isUpper Js.isLower Js.allChars].
    change (String (Js.lowerChar c) "" +:+ r) with (String (Js.lowerChar c) r).
    cbn -[Js.upperChar Js.lowerChar Js.isUpper Js.isLower Js.allChars].
    by rewrite Hl, Hr, Hback.
Qed.

(** The theorem on a camelCase name. *)
Lemma suggestCorrectNaming_pascal_camel_round_trip_witness :
  suggestCorrectNaming (suggestCorrectNaming "loginForm" "PascalCase") "camelCase"
  = "loginForm".
Proof.
  exact (proj2 (proj1 (suggestCorrectNaming_pascal_camel_round_trip "loginForm") eq_refl)).
Defined.

(** X3.  [matchesPattern] at its edges: the empty name matches none of
    the three conventions; a name that matches PascalCase matches neither
    camelCase nor kebab-case; and a pattern that is not one of the three
    names accepts every name. *)
Theorem matchesPattern_edges (name pattern : string) :
  (In pattern Spec.conventions -> matchesPattern EmptyString pattern = false)
  /\ (matchesPattern name "PascalCase" = true ->
      matchesPattern name "camelCase" = false
      /\ matchesPattern name "kebab-case" = false)
  /\ (~ In pattern Spec.conventions -> matchesPattern name pattern = true).
Proof.
  repeat split.
  - simpl. intros [<-|[<-|[<-|[]]]]; reflexivity.
  - destruct name as [|c r]; [discriminate|]. revert H.
    unfold matchesPattern. cbn [String.eqb Ascii.eqb Bool.eqb]. simpl.
    rewrite andb_true_iff. intros [Hc _]. by rewrite (isUpper_not_isLower c Hc).
  - destruct name as [|c r]; [discriminate|]. revert H.
    unfold matchesPattern. cbn [String.eqb Ascii.eqb Bool.eqb]. simpl.
    rewrite andb_true_iff. intros [Hc _]. by rewrite (isUpper_not_isLower c Hc).
  - intros Hp. unfold matchesPattern.
    destruct (String.eqb_spec pattern "PascalCase") as [->|_].
    { exfalso. apply Hp. simpl. tauto. }
    destruct (String.eqb_spec pattern "camelCase") as [->|_].
    { exfalso. apply Hp. simpl. tauto. }
    destruct (String.eqb_spec pattern "kebab-case") as [->|_].
    { exfalso. apply Hp. simpl. tauto. }
    done.
Qed.

(** The theorem on the pattern of test files. *)
Lemma matchesPattern_edges_witness : matchesPattern "anything at all" ".test.tsx" = true.
Proof.
  refine (proj2 (proj2 (matchesPattern_edges "anything at all" ".test.tsx")) _).
  simpl. intros [E|[E|[E|[]]]]; discriminate E.
Defined.

(** ** Similar features *)

Lemma startsWith_refl s : Js.startsWith s s = true.
Proof. induction s as [|c r IH]; simpl; [done|]. by rewrite Ascii.eqb_refl. Qed.

Lemma includes_refl s : Js.includes s s = true.
Proof. destruct s; simpl; [done|]. by rewrite Ascii.eqb_refl, startsWith_refl. Qed.

Lemma includes_unfold s sub :
  Js.includes s sub =
  Js.startsWith sub s || match s with EmptyString => false | String _ r => Js.includes r sub end.
Proof. by destruct s. Qed.

Lemma startsWith_append sub t : Js.startsWith sub (sub +:+ t) = true.
Proof. induction sub as [|c r IH]; simpl; [done|]. by rewrite Ascii.eqb_refl. Qed.

Lemma includes_append_l a s sub : Js.includes s sub = true -> Js.includes (a +:+ s) sub = true.
Proof.
  intros Hs. induction a as [|c a IH]; simpl; [done|].
  change (Js.startsWith sub (String c (a +:+ s)) || Js.includes (a +:+ s) sub = true).
  by rewrite IH, orb_true_r.
Qed.

(** A string includes each of its parts. *)
Lemma includes_middle a sub t : Js.includes (a +:+ sub +:+ t) sub = true.
Proof.
  apply includes_append_l. rewrite includes_unfold. by rewrite startsWith_append.
Qed.

Lemma toLowerCase_append a b :
  Js.toLowerCase (a +:+ b) = Js.toLowerCase a +:+ Js.toLowerCase b.
Proof.
  unfold Js.toLowerCase. induction a as [|c a IH]; simpl; [done|]. by rewrite IH.
Qed.

Lemma findSimilarFeatures_In pm feature existing :
  In existing (findSimilarFeatures pm feature) <->
  In existing (existingFeatures pm)
  /\ (Js.includes (Js.toLowerCase existing) (Js.toLowerCase feature) = true
      \/ Js.includes (Js.toLowerCase feature) (Js.toLowerCase existing) = true).
Proof.
  unfold findSimilarFeatures. by rewrite filter_In, orb_true_iff.
Qed.

Lemma isDuplicate_iff pm feature :
  isDuplicate (preventDuplication pm feature) = true <->
  exists existing, In existing (findSimilarFeatures pm feature).
Proof.
  unfold preventDuplication. cbn [isDuplicate].
  destruct (findSimilarFeatures pm feature) as [|e l]; simpl.
  - split; [done|]. by intros [? []].
  - split; [|done]. intros _. exists e. by left.
Qed.

(** X4.  A proposed feature whose name equals an existing feature's name
    up to the case of its letters is reported as a duplicate, with that
    feature among the alternatives. *)
Theorem preventDuplication_same_name_up_to_case
    (pm : ProjectMap) (proposedFeature existing : string) :
  In existing (existingFeatures pm) ->
  Js.toLowerCase proposedFeature = Js.toLowerCase existing ->
  isDuplicate (preventDuplication pm proposedFeature) = true
  /\ In existing (alternatives (preventDuplication pm proposedFeature)).
Proof.
  intros Hin Hsame.
  assert (Hsim : In existing (findSimilarFeatures pm proposedFeature)).
  { apply findSimilarFeatures_In. split; [done|]. left. rewrite Hsame. apply includes_refl. }
  split; [apply isDuplicate_iff; eauto|exact Hsim].
Qed.

(** The theorem on a project that has a LoginForm. *)
Lemma preventDuplication_same_name_up_to_case_witness :
  isDuplicate
    (preventDuplication (Example.projectWith ["Header"; "LoginForm"]) "loginform") = true.
Proof.
  refine (proj1 (preventDuplication_same_name_up_to_case _ "loginform" "LoginForm" _ _)).
  - simpl. tauto.
  - reflexivity.
Defined.

(** X5.  The empty name is similar to every existing feature: proposed
    for a project, it has all existing features as alternatives and is a
    duplicate as soon as the project has a feature. *)
Theorem preventDuplication_empty_name (pm : ProjectMap) :
  alternatives (preventDuplication pm EmptyString) = existingFeatures pm
  /\ (isDuplicate (preventDuplication pm EmptyString) = true <-> existingFeatures pm <> []).
Proof.
  assert (Hall : findSimilarFeatures pm EmptyString = existingFeatures pm).
  { unfold findSimilarFeatures. change (Js.toLowerCase EmptyString) with EmptyString.
    induction (existingFeatures pm) as [|e l IH]; [done|].
    cbn [List.filter]. by rewrite includes_empty_sub, IH. }
  unfold preventDuplication. cbn [alternatives isDuplicate]. rewrite Hall. split; [done|].
  destruct (existingFeatures pm); simpl; split; done.
Qed.

Lemma validateNaming_without_pattern pm proposedName fileType :
  patternFor (patterns pm) fileType = None ->
  isValid (validateNaming pm proposedName fileType)
  = negb (isDuplicate (preventDuplication pm proposedName)).
Proof.
  unfold validateNaming, preventDuplication. cbn [isDuplicate].
  intros ->. by destruct (0 <? length (findSimilarFeatures pm proposedName))%nat.
Qed.

(** X6.  [validateNaming] rejects every name that [preventDuplication]
    reports as a duplicate, whatever the file type; and for a file type
    that is not a key of the patterns object the two checks agree. *)
Theorem validateNaming_agrees_with_preventDuplication
    (pm : ProjectMap) (proposedName fileType : string) :
  (isDuplicate (preventDuplication pm proposedName) = true ->
   isValid (validateNaming pm proposedName fileType) = false
   /\ In conflictIssue (issues (validateNaming pm proposedName fileType)))
  /\ (patternFor (patterns pm) fileType = None ->
      isValid (validateNaming pm proposedName fileType)
      = negb (isDuplicate (preventDuplication pm proposedName))).
Proof.
  split; [|apply validateNaming_without_pattern].
  unfold validateNaming, preventDuplication. cbn [isDuplicate].
  intros Hdup. rewrite Hdup.
  destruct (patternFor (patterns pm) fileType) as [pattern|];
    [destruct (Js.truthy pattern && negb (matchesPattern proposedName pattern))|];
    cbn -[namingIssue conflictIssue]; split; auto.
Qed.

(** The theorem on a project that has a LoginForm. *)
Lemma validateNaming_agrees_with_preventDuplication_witness :
  isValid
    (validateNaming (Example.projectWith ["LoginForm"]) "Login" "component") = false.
Proof.
  refine (proj1 (proj1 (validateNaming_agrees_with_preventDuplication _ "Login" "component")
                   _)).
  reflexivity.
Defined.

(** ** Detected patterns *)

Lemma detectTestPattern_range files :
  detectTestPattern files = ".test.*" \/ detectTestPattern files = ".spec.*".
Proof.
  unfold detectTestPattern.
  destruct (existsb _ files); [by left|]. destruct (existsb _ files); auto.
Qed.

(** X7.  [detectTestPattern] answers with the spec pattern exactly when
    no file name contains [.test.] and some file name contains [.spec.];
    in every other case, the empty list included, it answers with the test
    pattern. *)
Theorem detectTestPattern_cases (files : list string) :
  (detectTestPattern files = ".spec.*" <->
   Forall (fun f => Js.includes f ".test." = false) files
   /\ Exists (fun f => Js.includes f ".spec." = true) files)
  /\ (detectTestPattern files = ".test.*" \/ detectTestPattern files = ".spec.*").
Proof.
  split; [|apply detectTestPattern_range].
  unfold detectTestPattern.
  destruct (existsb (fun f => Js.includes f ".test.") files) eqn:Htest.
  - split; [discriminate|]. intros [Hnone _].
    apply existsb_exists in Htest as (f & Hf & Hinc).
    rewrite Forall_forall in Hnone. apply list_elem_of_In, Hnone in Hf. congruence.
  - assert (Hnone : Forall (fun f => Js.includes f ".test." = false) files).
    { apply Forall_forall. intros f Hf. apply list_elem_of_In in Hf.
      destruct (Js.includes f ".test.") eqn:E; [|done].
      assert (existsb (fun f => Js.includes f ".test.") files = true)
        by (apply existsb_exists; eauto).
      congruence. }
    destruct (existsb (fun f => Js.includes f ".spec.") files) eqn:Hspec.
    + split; [|done]. intros _. split; [done|].
      apply existsb_exists in Hspec as (f & Hf & Hinc).
      apply Exists_exists. exists f. split; [by apply list_elem_of_In|done].
    + split; [discriminate|]. intros [_ Hsome].
      apply Exists_exists in Hsome as (f & Hf & Hinc).
      assert (existsb (fun f => Js.includes f ".spec.") files = true).
      { apply existsb_exists. exists f. split; [by apply list_elem_of_In|done]. }
      congruence.
Qed.

Lemma detectNamingPattern_range files :
  detectNamingPattern files = "PascalCase" \/ detectNamingPattern files = "camelCase".
Proof.
  unfold detectNamingPattern. destruct (_ <? _)%nat; auto.
Qed.

(** X8.  [detectPatterns] never changes the conventions of utilities and
    of API routes; the convention of components is PascalCase or
    camelCase; and the pattern of tests is one that [matchesPattern]
    accepts for every name, so the analysis never makes [validateNaming]
    record a naming issue for the file type [tests]. *)
Theorem detectPatterns_range (sh : Shell.t) :
  utilities (detectPatterns sh) = "camelCase"
  /\ apiRoutes (detectPatterns sh) = "kebab-case"
  /\ (components (detectPatterns sh) = "PascalCase"
      \/ components (detectPatterns sh) = "camelCase")
  /\ (forall name, matchesPattern name (tests (detectPatterns sh)) = true)
  /\ (forall pm proposedName,
         patterns pm = detectPatterns sh ->
         isValid (validateNaming pm proposedName "tests")
         = negb (isDuplicate (preventDuplication pm proposedName))).
Proof.
  assert (Htests : forall name, matchesPattern name (tests (detectPatterns sh)) = true).
  { intros name. unfold detectPatterns.
    assert (Hcases : forall files,
               matchesPattern name (detectTestPattern files) = true).
    { intros files. by destruct (detectTestPattern_range files) as [-> | ->]. }
    destruct (0 <? length (findFiles sh "*.tsx" (Some "components")))%nat;
      destruct (0 <? length (findFiles sh "*.test.*" None))%nat; cbn [tests];
      first [apply Hcases | reflexivity]. }
  repeat split.
  - unfold detectPatterns.
    by destruct (0 <? length (findFiles sh "*.tsx" (Some "components")))%nat;
      destruct (0 <? length (findFiles sh "*.test.*" None))%nat.
  - unfold detectPatterns.
    by destruct (0 <? length (findFiles sh "*.tsx" (Some "components")))%nat;
      destruct (0 <? length (findFiles sh "*.test.*" None))%nat.
  - unfold detectPatterns.
    destruct (0 <? length (findFiles sh "*.tsx" (Some "components")))%nat;
      destruct (0 <? length (findFiles sh "*.test.*" None))%nat; cbn [components];
      first [apply detectNamingPattern_range | by left].
  - exact Htests.
  - intros pm proposedName Hpm.
    unfold validateNaming, preventDuplication. cbn [isDuplicate].
    replace (patternFor (patterns pm) "tests") with (Some (tests (patterns pm)))
      by reflexivity.
    rewrite Hpm, Htests, andb_false_r.
    by destruct (0 <? length (findSimilarFeatures pm proposedName))%nat.
Qed.

(** The last part of the theorem on a project with default patterns. *)
Lemma detectPatterns_range_witness :
  isValid
    (validateNaming (Example.analysedPatterns Scenario.missingRoot) "not a test name" "tests")
  = true.
Proof.
  exact (proj2 (proj2 (proj2 (proj2 (detectPatterns_range Scenario.missingRoot))))
           (Example.analysedPatterns Scenario.missingRoot) "not a test name" eq_refl).
Defined.

(** ** The directory structure *)

#[local] Set Warnings "-clear-no-such-hyp".

(** X9.  The canonical map that [mapStructure] builds has an entry for a
    role exactly when the role is components, docs or lib and its scan
    finds more than one directory; the entry is what
    [selectCanonicalLocation] selects from that scan with the preference
    of the role. *)
Theorem mapStructure_entries (sh : Shell.t) (role : string) :
  (forall preferred,
      In (role, preferred)
         [("components", "src/components"); ("docs", "docs"); ("lib", "src/lib")] ->
      canonicalLocations (mapStructure sh) !! role
      = if (1 <? length (findDirectories sh role))%nat
        then selectCanonicalLocation (findDirectories sh role) preferred
        else None)
  /\ (~ In role ["components"; "docs"; "lib"] ->
      canonicalLocations (mapStructure sh) !! role = None).
Proof.
  split.
  - intros preferred Hin.
    change (canonicalLocations (mapStructure sh) !! role
            = Example.picked sh role preferred).
    simpl in Hin. destruct Hin as [ [= <- <-] | [ [= <- <-] | [ [= <- <-] | [] ] ] ];
      split_structure sh; by simplify_map_eq.
  - intros Hrole.
    assert (role <> "components" /\ role <> "docs" /\ role <> "lib") as (N1 & N2 & N3).
    { simpl in Hrole. repeat split; intros ->; tauto. }
    split_structure sh; by simplify_map_eq.
Qed.

(** The theorem on the end-to-end scenario. *)
Lemma mapStructure_entries_witness :
  canonicalLocations (mapStructure Scenario.threeComponents) !! "docs" = None.
Proof.
  rewrite (proj1 (mapStructure_entries Scenario.threeComponents "docs") "docs").
  - reflexivity.
  - simpl. tauto.
Defined.

(** X10.  A path is among the forbidden locations of [mapStructure]
    exactly when the scan of components, docs or lib found it and that
    role has a canonical location different from it. *)
Theorem mapStructure_forbidden_iff (sh : Shell.t) (p : string) :
  In p (forbiddenLocations (mapStructure sh)) <->
  Example.violation sh "components" p
  \/ Example.violation sh "docs" p
  \/ Example.violation sh "lib" p.
Proof.
  split_structure sh; rewrite ?in_app_iff, ?filter_ne_In;
    rewrite ?lookup_insert_eq, ?lookup_insert_ne by done;
    rewrite ?lookup_insert_eq, ?lookup_insert_ne by done;
    rewrite ?lookup_insert_eq, ?lookup_empty; naive_solver.
Qed.

(** X11.  In the result of [mapStructure] every forbidden location and
    every canonical location is one of the duplicate structures, and
    every duplicate structure is forbidden or canonical. *)
Theorem mapStructure_duplicates_cover (sh : Shell.t) :
  (forall p, In p (forbiddenLocations (mapStructure sh)) ->
             In p (duplicateStructures (mapStructure sh)))
  /\ (forall role canonical,
         canonicalLocations (mapStructure sh) !! role = Some canonical ->
         In canonical (duplicateStructures (mapStructure sh)))
  /\ (forall p, In p (duplicateStructures (mapStructure sh)) ->
                In p (forbiddenLocations (mapStructure sh))
                \/ exists role, canonicalLocations (mapStructure sh) !! role = Some p).
Proof.
  repeat split.
  - intros p. split_structure sh; rewrite ?in_app_iff, ?filter_ne_In; naive_solver.
  - intros role canonical. split_structure sh; rewrite ?in_app_iff;
      rewrite ?lookup_insert; repeat case_decide; rewrite ?lookup_empty; naive_solver.
  - intros p. split_structure sh; rewrite ?in_app_iff, ?filter_ne_In;
      rewrite ?in_app_iff; intros Hp;
      try (destruct (decide (p = c1)) as [->|?]);
      try (destruct (decide (p = c2)) as [->|?]);
      try (destruct (decide (p = c3)) as [->|?]);
      first
        [ done
        | right; exists "lib"; by rewrite lookup_insert_eq
        | right; exists "docs"; rewrite ?lookup_insert_ne by done;
          by rewrite lookup_insert_eq
        | right; exists "components"; rewrite ?lookup_insert_ne by done;
          by rewrite lookup_insert_eq
        | left; tauto ].
Qed.

(** ** Suggested locations *)

Lemma orDefault_truthy (a : option string) (d : string) :
  Js.truthy d = true -> Js.truthy (Js.orDefault a d) = true.
Proof.
  intros Hd. destruct a as [s|]; simpl; [|done]. by destruct (Js.truthy s) eqn:E.
Qed.

(** X12.  [suggestLocation] never answers with the empty path, whatever
    the project map holds, and answers [src] for every file type other
    than component, utility, test and documentation. *)
Theorem suggestLocation_never_empty (pm : ProjectMap) (fileType featureName : string) :
  Js.truthy (suggestLocation pm fileType featureName) = true
  /\ (~ In fileType ["component"; "utility"; "test"; "documentation"] ->
      suggestLocation pm fileType featureName = "src").
Proof.
  unfold suggestLocation. split.
  - repeat (destruct (String.eqb fileType _); [by apply orDefault_truthy|]). done.
  - intros Hft.
    destruct (String.eqb_spec fileType "component") as [->|_]; [simpl in Hft; tauto|].
    destruct (String.eqb_spec fileType "utility") as [->|_]; [simpl in Hft; tauto|].
    destruct (String.eqb_spec fileType "test") as [->|_]; [simpl in Hft; tauto|].
    destruct (String.eqb_spec fileType "documentation") as [->|_]; [simpl in Hft; tauto|].
    done.
Qed.

(** The theorem on a file type that the switch does not list. *)
Lemma suggestLocation_never_empty_witness :
  suggestLocation Scenario.emptyProject "hook" "useLogin" = "src".
Proof.
  refine (proj2 (suggestLocation_never_empty Scenario.emptyProject "hook" "useLogin") _).
  simpl. intros [E|[E|[E|[E|[]]]]]; discriminate E.
Defined.

(** ** Feature names *)

Import Analysis.

Lemma isSourceExtension_cases ext :
  isSourceExtension ext = true ->
  ext = ".ts" \/ ext = ".tsx" \/ ext = ".js" \/ ext = ".jsx".
Proof.
  unfold isSourceExtension. rewrite !orb_true_iff, !String.eqb_eq. tauto.
Qed.

Lemma isSourceExtension_longer c name ext :
  isSourceExtension ext = true -> isSourceExtension (String c (name +:+ ext)) = false.
Proof.
  intros Hext. destruct (isSourceExtension (String c (name +:+ ext))) eqn:E; [|done].
  apply isSourceExtension_cases in Hext, E.
  destruct Hext as [ -> | [ -> | [ -> | -> ] ] ];
    destruct name as [|a [|b [|d [|e name]]]]; cbv in E;
    destruct E as [E|[E|[E|E]]]; discriminate E.
Qed.

Lemma stripSourceExtension_append name ext :
  isSourceExtension ext = true -> stripSourceExtension (name +:+ ext) = name.
Proof.
  intros Hext. induction name as [|c name IH].
  - destruct ext as [|c r]; [done|].
    change (EmptyString +:+ String c r) with (String c r).
    cbn [stripSourceExtension]. by rewrite Hext.
  - change (String c name +:+ ext) with (String c (name +:+ ext)).
    cbn [stripSourceExtension]. by rewrite (isSourceExtension_longer c name ext Hext), IH.
Qed.

Lemma stripSourceExtension_allChars p s :
  Js.allChars p s = true -> Js.allChars p (stripSourceExtension s) = true.
Proof.
  induction s as [|c r IH]; [done|]. cbn [stripSourceExtension].
  destruct (isSourceExtension (String c r)); [done|].
  simpl. rewrite !andb_true_iff. intros [Hc Hr]. auto.
Qed.

Lemma sourceExtension_noSlash ext : isSourceExtension ext = true -> Example.noSlash ext.
Proof. intros H. by destruct (isSourceExtension_cases ext H) as [ -> | [ -> | [ -> | -> ] ] ]. Qed.

Lemma extractFeatureName_file name ext :
  Example.noSlash name -> isSourceExtension ext = true ->
  extractFeatureName (name +:+ ext) = name.
Proof.
  intros Hname Hext. unfold extractFeatureName.
  rewrite split_without_sep.
  2:{ rewrite allChars_append, Hname. by apply sourceExtension_noSlash. }
  cbn [last]. unfold Js.orDefault.
  destruct (name +:+ ext) as [|c r] eqn:E.
  - destruct name; [|discriminate E].
    change (EmptyString +:+ ext) with ext in E. subst ext. discriminate Hext.
  - cbn [Js.truthy]. rewrite <- E. by apply stripSourceExtension_append.
Qed.

Lemma extractFeatureName_in_dir dir name ext :
  Example.noSlash name -> isSourceExtension ext = true ->
  extractFeatureName (dir +:+ "/" +:+ name +:+ ext) = name.
Proof.
  intros Hname Hext.
  assert (Hfile : Example.noSlash (name +:+ ext)).
  { unfold Example.noSlash. rewrite allChars_append, Hname.
    by apply sourceExtension_noSlash. }
  unfold extractFeatureName.
  change ("/" +:+ name +:+ ext) with (String slash (name +:+ ext)).
  rewrite (last_split_after_sep slash dir (name +:+ ext) Hfile).
  pose proof (extractFeatureName_file name ext Hname Hext) as Hplain.
  unfold extractFeatureName in Hplain.
  by rewrite (split_without_sep slash _ Hfile) in Hplain.
Qed.

(** X13.  [extractFeatureName] undoes the naming of a source file: from
    the path of a file called name plus one of the extensions ts, tsx, js
    and jsx, in any directory, it gives the name back, provided the name
    has no slash. *)
Theorem extractFeatureName_of_source_file (dir name ext : string) :
  Example.noSlash name ->
  isSourceExtension ext = true ->
  extractFeatureName (dir +:+ "/" +:+ name +:+ ext) = name
  /\ extractFeatureName (name +:+ ext) = name.
Proof.
  intros Hname Hext.
  split; [by apply extractFeatureName_in_dir|by apply extractFeatureName_file].
Qed.

(** The theorem on a test file: only the last extension goes. *)
Lemma extractFeatureName_of_source_file_witness :
  extractFeatureName "./__tests__/components/LoginForm.test.tsx" = "LoginForm.test".
Proof.
  exact (proj1 (extractFeatureName_of_source_file "./__tests__/components"
                  "LoginForm.test" ".tsx" eq_refl eq_refl)).
Defined.

Lemma extractFeatureName_noSlash filePath : Example.noSlash (extractFeatureName filePath).
Proof.
  unfold extractFeatureName, Example.noSlash.
  apply stripSourceExtension_allChars.
  pose proof (split_pieces slash filePath) as Hall.
  destruct (last (Js.split slash filePath)) as [piece|] eqn:Hlast; [|done].
  apply last_Some_elem_of in Hlast. rewrite Forall_forall in Hall.
  specialize (Hall piece Hlast). simpl. by destruct (Js.truthy piece).
Qed.

(** X14.  The catalogue of features holds no empty name and no name with
    a slash, and each of its names is the feature name of a file that one
    of the three scans found. *)
Theorem catalogFeatures_names (sh : Shell.t) :
  Forall
    (fun feature =>
       Js.truthy feature = true
       /\ Example.noSlash feature
       /\ exists file,
            feature = extractFeatureName file
            /\ (In file (findFiles sh "*.tsx" (Some "components"))
                \/ In file (findFiles sh "*.ts" (Some "lib"))
                \/ In file (findFiles sh "*.ts" (Some "api"))))
    (catalogFeatures sh).
Proof.
  apply Forall_forall. intros feature Hin.
  apply list_elem_of_In in Hin. unfold catalogFeatures, Js.filterBoolean in Hin.
  apply filter_In in Hin as [Hin Htruthy]. simpl in Hin.
  rewrite !in_app_iff, !in_map_iff in Hin.
  split; [done|].
  destruct Hin as [[(file & <- & Hfile)|(file & <- & Hfile)]|(file & <- & Hfile)];
    (split; [apply extractFeatureName_noSlash|]); exists file; tauto.
Qed.

(** ** Created features and the catalogue *)

Lemma plainJoin_two loc file :
  Js.truthy file = true ->
  Fs.plainJoin [loc; file] = if Js.truthy loc then loc +:+ "/" +:+ file else file.
Proof.
  intros Hfile. unfold Fs.plainJoin, Js.filterBoolean. cbn [List.filter].
  rewrite Hfile. by destruct (Js.truthy loc).
Qed.

Lemma extractFeatureName_plainJoin loc name ext :
  Example.noSlash name -> isSourceExtension ext = true ->
  extractFeatureName (Fs.plainJoin [loc; name +:+ ext]) = name.
Proof.
  intros Hname Hext. rewrite plainJoin_two.
  2:{ apply truthy_append_r. by destruct (isSourceExtension_cases ext Hext)
        as [ -> | [ -> | [ -> | -> ] ] ]. }
  destruct (Js.truthy loc);
    [by apply extractFeatureName_in_dir|by apply extractFeatureName_file].
Qed.

Lemma noSlash_use name : Example.noSlash name -> Example.noSlash ("use" +:+ name).
Proof. intros H. unfold Example.noSlash. by rewrite allChars_append, H. Qed.

Lemma plainJoin_route lower :
  exists dir, Fs.plainJoin ["src/app/api"; lower; "route.ts"] = dir +:+ "/" +:+ "route.ts".
Proof.
  unfold Fs.plainJoin, Js.filterBoolean. cbn [List.filter Js.truthy].
  destruct (Js.truthy lower).
  - exists ("src/app/api" +:+ "/" +:+ lower). cbn [Js.join].
    by rewrite !append_assoc_string.
  - by exists "src/app/api".
Qed.

(** X15.  The name under which the catalogue lists the implementation
    file that the protocol writes, for a feature name without a slash: the
    name of the feature for a component, a utility and a feature of no
    declared kind; the name with [use] in front for a hook; and [route]
    for every API feature, whatever its name. *)
Theorem created_feature_catalogue_name (this : TDDProtocol.t) (spec : FeatureSpec) :
  Example.noSlash (TDDProtocol.name spec) ->
  let path := @getImplementationPath Fs.plainPath this spec in
  (TDDProtocol.type spec = "component" \/ TDDProtocol.type spec = "utility"
   \/ ~ In (TDDProtocol.type spec) Spec.kinds ->
   extractFeatureName path = TDDProtocol.name spec)
  /\ (TDDProtocol.type spec = "hook" ->
      extractFeatureName path = "use" +:+ TDDProtocol.name spec)
  /\ (TDDProtocol.type spec = "api" -> extractFeatureName path = "route").
Proof.
  intros Hname path. subst path. unfold getImplementationPath.
  cbn [Fs.join Fs.plainPath]. repeat split.
  - intros [->|[->|Hkind]]; cbn [String.eqb Ascii.eqb Bool.eqb].
    + by apply extractFeatureName_plainJoin.
    + by apply extractFeatureName_plainJoin.
    + destruct (String.eqb_spec (TDDProtocol.type spec) "component") as [E|_];
        [rewrite E in Hkind; simpl in Hkind; tauto|].
      destruct (String.eqb_spec (TDDProtocol.type spec) "utility") as [E|_];
        [rewrite E in Hkind; simpl in Hkind; tauto|].
      destruct (String.eqb_spec (TDDProtocol.type spec) "api") as [E|_];
        [rewrite E in Hkind; simpl in Hkind; tauto|].
      destruct (String.eqb_spec (TDDProtocol.type spec) "hook") as [E|_];
        [rewrite E in Hkind; simpl in Hkind; tauto|].
      by apply extractFeatureName_plainJoin.
  - intros ->. cbn [String.eqb Ascii.eqb Bool.eqb].
    rewrite <- (append_assoc_string "use" (TDDProtocol.name spec) ".ts").
    apply extractFeatureName_plainJoin; [by apply noSlash_use|done].
  - intros ->. cbn [String.eqb Ascii.eqb Bool.eqb].
    destruct (plainJoin_route (Js.toLowerCase (TDDProtocol.name spec))) as (dir & ->).
    change ("/" +:+ "route.ts") with ("/" +:+ "route" +:+ ".ts").
    by apply extractFeatureName_in_dir.
Qed.

(** The theorem on an API feature. *)
Lemma created_feature_catalogue_name_witness :
  extractFeatureName
    (@getImplementationPath Fs.plainPath Scenario.protocol Example.apiUsers)
  = "route".
Proof.
  exact (proj2 (proj2 (created_feature_catalogue_name Scenario.protocol Example.apiUsers
                         eq_refl)) eq_refl).
Defined.

Lemma catalogue_name_similar this spec :
  Example.noSlash (TDDProtocol.name spec) ->
  TDDProtocol.type spec <> "api" ->
  Js.includes
    (Js.toLowerCase (extractFeatureName (@getImplementationPath Fs.plainPath this spec)))
    (Js.toLowerCase (TDDProtocol.name spec)) = true.
Proof.
  intros Hname Hapi. unfold getImplementationPath. cbn [Fs.join Fs.plainPath].
  destruct (String.eqb (TDDProtocol.type spec) "component");
    [rewrite extractFeatureName_plainJoin by done; apply includes_refl|].
  destruct (String.eqb (TDDProtocol.type spec) "utility");
    [rewrite extractFeatureName_plainJoin by done; apply includes_refl|].
  destruct (String.eqb_spec (TDDProtocol.type spec) "api") as [E|_]; [done|].
  destruct (String.eqb (TDDProtocol.type spec) "hook").
  - rewrite <- (append_assoc_string "use" (TDDProtocol.name spec) ".ts").
    rewrite extractFeatureName_plainJoin by (by try apply noSlash_use).
    rewrite toLowerCase_append. apply includes_append_l, includes_refl.
  - rewrite extractFeatureName_plainJoin by done. apply includes_refl.
Qed.

(** X16.  Once the catalogue of a project lists the implementation file
    that the protocol writes for a feature (of any kind but api, the name
    without a slash), [preventDuplication] reports the feature as a
    duplicate and [createFeature] on that project returns without
    writing. *)
Theorem created_feature_blocks_recreation
    (this this' : TDDProtocol.t) (spec : FeatureSpec) (fs : Fs.t) :
  Example.noSlash (TDDProtocol.name spec) ->
  TDDProtocol.type spec <> "api" ->
  In (extractFeatureName (@getImplementationPath Fs.plainPath this spec))
     (existingFeatures (intelligence this')) ->
  isDuplicate (preventDuplication (intelligence this') (TDDProtocol.name spec)) = true
  /\ @createFeature Fs.plainPath this' spec fs = (fs, Fs.Returned).
Proof.
  intros Hname Hapi Hin.
  assert (Hdup : isDuplicate (preventDuplication (intelligence this')
                                (TDDProtocol.name spec)) = true).
  { apply isDuplicate_iff. eexists. apply findSimilarFeatures_In.
    split; [exact Hin|]. left. by apply catalogue_name_similar. }
  split; [done|]. rewrite createFeature_unfold. by rewrite Hdup.
Qed.

(** The theorem on a hook that a later analysis has catalogued. *)
Lemma created_feature_blocks_recreation_witness :
  @createFeature Fs.plainPath (TDDProtocol.new (Example.projectWith ["useLogin"]))
    Example.hookLogin Fs.empty = (Fs.empty, Fs.Returned).
Proof.
  refine (proj2 (created_feature_blocks_recreation Scenario.protocol
                   (TDDProtocol.new (Example.projectWith ["useLogin"]))
                   Example.hookLogin Fs.empty eq_refl _ _)).
  - discriminate.
  - vm_compute. tauto.
Defined.

(** ** What [createFeature] touches *)

Section Frame.
Context `{Fs.Path}.

(** X17.  For the four declared kinds the naming check of
    [createFeature] is vacuous, the patterns being keyed by other words:
    the feature is written exactly when [preventDuplication] finds no
    similar feature, whatever the form of its name. *)
Theorem createFeature_declared_kind (this : TDDProtocol.t) (spec : FeatureSpec) (fs : Fs.t) :
  In (TDDProtocol.type spec) Spec.kinds ->
  createFeature this spec fs =
  if isDuplicate (preventDuplication (intelligence this) (TDDProtocol.name spec))
  then (fs, Fs.Returned)
  else writeSteps this spec fs.
Proof.
  intros Hkind. rewrite createFeature_unfold.
  assert (Hnone : patternFor (patterns (intelligence this)) (TDDProtocol.type spec) = None).
  { simpl in Hkind. by destruct Hkind as [<-|[<-|[<-|[<-|[]]]]]. }
  rewrite (validateNaming_without_pattern
             (intelligence this) (TDDProtocol.name spec) (TDDProtocol.type spec) Hnone).
  by destruct (isDuplicate _).
Qed.

(** X18.  [createFeature] never removes a file or a directory, and leaves
    the content of every path other than the test path and the
    implementation path as it was, whether it returns or throws. *)
Theorem createFeature_frame (this : TDDProtocol.t) (spec : FeatureSpec) (fs : Fs.t) :
  Fs.extends fs (createFeature this spec fs).1
  /\ (forall p,
         p <> getTestPath this spec ->
         p <> getImplementationPath this spec ->
         Fs.files (createFeature this spec fs).1 !! p = Fs.files fs !! p).
Proof.
  rewrite createFeature_unfold.
  destruct (isDuplicate _ || negb (isValid _)); [split; [apply extends_refl|done]|].
  apply writeSteps_frame.
Qed.


(** X20.  The protocol writes where [suggestLocation] points: the
    locations of its configuration are the suggestions for components,
    utilities and tests, none of them is empty, and the implementation of
    a component goes to its name with the extension tsx under the
    suggested location. *)
Theorem protocol_follows_suggestLocation (pm : ProjectMap) (spec : FeatureSpec) :
  componentLocation (config (TDDProtocol.new pm))
  = suggestLocation pm "component" (TDDProtocol.name spec)
  /\ utilityLocation (config (TDDProtocol.new pm))
     = suggestLocation pm "utility" (TDDProtocol.name spec)
  /\ TDDProtocol.testLocation (config (TDDProtocol.new pm))
     = suggestLocation pm "test" (TDDProtocol.name spec)
  /\ Js.truthy (componentLocation (config (TDDProtocol.new pm))) = true
  /\ Js.truthy (utilityLocation (config (TDDProtocol.new pm))) = true
  /\ Js.truthy (TDDProtocol.testLocation (config (TDDProtocol.new pm))) = true
  /\ (TDDProtocol.type spec = "component" ->
      getImplementationPath (TDDProtocol.new pm) spec
      = Fs.join [suggestLocation pm "component" (TDDProtocol.name spec);
                 TDDProtocol.name spec +:+ ".tsx"]).
Proof.
  repeat split; try reflexivity; try (by apply orDefault_truthy).
  intros Hc. unfold getImplementationPath. by rewrite Hc.
Qed.

End Frame.

(** The theorem on a component whose name is not in PascalCase. *)
Lemma createFeature_declared_kind_witness :
  @createFeature Fs.plainPath Scenario.protocol Example.lowerComponent Fs.empty
  = @writeSteps Fs.plainPath Scenario.protocol Example.lowerComponent Fs.empty.
Proof.
  rewrite (@createFeature_declared_kind Fs.plainPath Scenario.protocol
             Example.lowerComponent Fs.empty).
  - reflexivity.
  - simpl. tauto.
Defined.

(** The theorem on a file of the project that the feature does not name. *)
Lemma createFeature_frame_witness :
  Fs.files (@createFeature Fs.plainPath Scenario.protocol Scenario.componentX
              Scenario.withOldTest).1 !! "README.md"
  = Fs.files Scenario.withOldTest !! "README.md".
Proof.
  refine (proj2 (@createFeature_frame Fs.plainPath Scenario.protocol Scenario.componentX
                   Scenario.withOldTest) "README.md" _ _); discriminate.
Defined.


(** The last part of the theorem on the component of the scenario. *)
Lemma protocol_follows_suggestLocation_witness :
  @getImplementationPath Fs.plainPath (TDDProtocol.new Scenario.emptyProject)
    Scenario.componentX
  = "src/components/X.tsx".
Proof.
  rewrite (proj2 (proj2 (proj2 (proj2 (proj2 (proj2
             (@protocol_follows_suggestLocation Fs.plainPath Scenario.emptyProject
                Scenario.componentX)))))) eq_refl).
  reflexivity.
Defined.

(** ** The analysis of a project *)

Section AnalysisFacts.
Context `{Fs.Path}.
Variable JSON_parse : string -> option Json.t.

(** X21.  The conflicts of a project map lag one analysis behind: the
    map that the constructor builds has no conflict, whatever the scans
    find, and a further analysis on the same object reports one
    duplicate-directory conflict for each duplicate structure of the map
    it replaces, not of the scan it makes. *)
Theorem conflicts_lag_one_analysis
    (projectRoot : string) (sh sh' : Shell.t) (fs fs' : Fs.t) :
  conflicts (construct JSON_parse projectRoot sh fs) = []
  /\ List.map location
       (conflicts (analyzeProject JSON_parse
                     (Some (construct JSON_parse projectRoot sh fs))
                     projectRoot sh' fs'))
     = duplicateStructures (mapStructure sh)
  /\ Forall (fun conflict => Analysis.type conflict = duplicate_directory)
       (conflicts (analyzeProject JSON_parse
                     (Some (construct JSON_parse projectRoot sh fs))
                     projectRoot sh' fs')).
Proof.
  split; [reflexivity|].
  unfold analyzeProject, construct, detectPotentialConflicts.
  cbn [conflicts core structure]. split.
  - rewrite map_map. cbn [location]. apply map_id.
  - apply Forall_forall. intros conflict Hin.
    apply list_elem_of_In, in_map_iff in Hin as (duplicate & <- & _). reflexivity.
Qed.

(** X22.  When [package.json] exists and cannot be used (it is not a
    readable file, its text is not JSON, or it is the JSON [null]),
    [extractConventions] leaves every convention unknown: the language
    too, even when [tsconfig.json] exists. *)
Theorem extractConventions_unusable_package (projectRoot : string) (fs : Fs.t) :
  Fs.existsSync (Fs.join [projectRoot; "package.json"]) fs = true ->
  match Fs.files fs !! Fs.join [projectRoot; "package.json"] with
  | None => True
  | Some text => JSON_parse text = None \/ JSON_parse text = Some Json.Null
  end ->
  extractConventions JSON_parse projectRoot fs = unknownConventions.
Proof.
  intros Hexists Hbad. unfold extractConventions, readPackageConventions.
  rewrite Hexists.
  destruct (Fs.files fs !! Fs.join [projectRoot; "package.json"]) as [text|]; [|done].
  by destruct Hbad as [-> | ->].
Qed.

Lemma readPackageConventions_language projectRoot fs conventions :
  readPackageConventions JSON_parse projectRoot fs = Some conventions ->
  language conventions = "unknown".
Proof.
  unfold readPackageConventions.
  destruct (Fs.existsSync _ fs); [|by intros [= <-]].
  destruct (Fs.files fs !! _) as [text|]; [|done].
  destruct (JSON_parse text) as [[]|]; try done; by intros [= <-].
Qed.

(** X23.  The language that [extractConventions] reports is typescript
    exactly when [tsconfig.json] exists and reading [package.json] threw
    no exception, and unknown otherwise; without a [package.json] the
    three other conventions are unknown. *)
Theorem extractConventions_language (projectRoot : string) (fs : Fs.t) :
  (language (extractConventions JSON_parse projectRoot fs) = "typescript" <->
   Fs.existsSync (Fs.join [projectRoot; "tsconfig.json"]) fs = true
   /\ readPackageConventions JSON_parse projectRoot fs <> None)
  /\ (language (extractConventions JSON_parse projectRoot fs) = "typescript"
      \/ language (extractConventions JSON_parse projectRoot fs) = "unknown")
  /\ (Fs.existsSync (Fs.join [projectRoot; "package.json"]) fs = false ->
      framework (extractConventions JSON_parse projectRoot fs) = "unknown"
      /\ testingFramework (extractConventions JSON_parse projectRoot fs) = "unknown"
      /\ stylingFramework (extractConventions JSON_parse projectRoot fs) = "unknown").
Proof.
  assert (Hnopkg : Fs.existsSync (Fs.join [projectRoot; "package.json"]) fs = false ->
                   readPackageConventions JSON_parse projectRoot fs
                   = Some unknownConventions).
  { intros Hpkg. unfold readPackageConventions. by rewrite Hpkg. }
  unfold extractConventions.
  destruct (readPackageConventions JSON_parse projectRoot fs) as [conventions|] eqn:Hread.
  - pose proof (readPackageConventions_language _ _ _ Hread) as Hlang.
    assert (Hrest : Fs.existsSync (Fs.join [projectRoot; "package.json"]) fs = false ->
                    framework conventions = "unknown"
                    /\ testingFramework conventions = "unknown"
                    /\ stylingFramework conventions = "unknown").
    { intros Hpkg. specialize (Hnopkg Hpkg). by injection Hnopkg as ->. }
    destruct (Fs.existsSync (Fs.join [projectRoot; "tsconfig.json"]) fs) eqn:Hts;
      cbn [language framework testingFramework stylingFramework]; rewrite ?Hlang.
    + split; [split; [done|done]|]. split; [by left|exact Hrest].
    + split; [split; [discriminate|by intros [? _]]|]. split; [by right|exact Hrest].
  - unfold unknownConventions. cbn [language framework testingFramework stylingFramework].
    split; [split; [discriminate|by intros [_ ?]]|]. split; [by right|done].
Qed.

(** X24.  The test location that [detectTestFramework] reports is never
    empty: it is the first directory called test that the scan finds, and
    [__tests__] when the scan finds none.  So on a project map built by
    the analysis [suggestLocation] answers with it for tests, its default
    never being used. *)
Theorem detectTestFramework_location (projectRoot : string) (sh : Shell.t) (fs : Fs.t) :
  let framework := detectTestFramework projectRoot sh fs in
  ProjectIntelligence.testLocation framework
  = match findDirectories sh "test" with
    | first :: _ => first
    | [] => "__tests__"
    end
  /\ Js.truthy (ProjectIntelligence.testLocation framework) = true
  /\ (forall featureName,
         suggestLocation (core (construct JSON_parse projectRoot sh fs)) "test" featureName
         = ProjectIntelligence.testLocation framework).
Proof.
  intros framework. subst framework.
  assert (Htruthy : Js.truthy (ProjectIntelligence.testLocation
                                 (detectTestFramework projectRoot sh fs)) = true).
  { unfold detectTestFramework. cbn [ProjectIntelligence.testLocation].
    pose proof (findDirectories_lines sh "test") as Hlines.
    destruct (findDirectories sh "test") as [|first rest]; [done|].
    apply Forall_cons in Hlines as [[Hfirst _] _]. exact Hfirst. }
  split; [reflexivity|]. split; [exact Htruthy|].
  intros featureName. unfold suggestLocation, construct, analyzeProject.
  cbn [core ProjectIntelligence.testFramework String.eqb Ascii.eqb Bool.eqb].
  unfold Js.orDefault. by rewrite Htruthy.
Qed.

End AnalysisFacts.

(** The theorem on a project whose package file is not JSON. *)
Lemma extractConventions_unusable_package_witness :
  @extractConventions Fs.plainPath Example.parseTwoTexts EmptyString Example.brokenPackage
  = unknownConventions.
Proof.
  apply (@extractConventions_unusable_package Fs.plainPath Example.parseTwoTexts
           EmptyString Example.brokenPackage).
  - vm_compute. reflexivity.
  - vm_compute. tauto.
Defined.

(** The last part of the theorem on an empty directory. *)
Lemma extractConventions_language_witness :
  framework (@extractConventions Fs.plainPath Example.parseTwoTexts EmptyString Fs.empty)
  = "unknown".
Proof.
  exact (proj1 (proj2 (proj2 (@extractConventions_language Fs.plainPath
                                Example.parseTwoTexts EmptyString Fs.empty))
                  eq_refl)).
Defined.
